(** * A shallow embedding of [appinsights/dockercollector.py]

    The collector keeps a cache [_containers_state] from container id to a
    resolution entry, refreshes it against the container listing (eviction
    with a 60 s grace period, then key discovery through an exec inside
    each container), and emits metric and lifecycle events.

    Modelling choices:
    - [time.time()] is a rational clock [clock : Q] (seconds) in the state;
      [time.sleep(1)] advances it by one; other calls take no time.
    - Python floats are modelled as exact rationals ([Q]).
    - exceptions are the [Raise] case of [res]; the collector is a state
      and error monad [M] over [St].
    - the docker wrapper and the conversion module are collaborators given
      as records of functions.
    - the thread-pool fan-out ([executor.map] consumed by [list]) runs every
      task, each starting at the batch's start time (the pool has at least
      as many workers as tasks), threads the dictionary through the tasks
      in input order (each task writes only its own key), ends at the
      latest finish time and re-raises the first exception in input order. *)

From Stdlib Require Import QArith Qminmax Lqa String Ascii List Lia.
From stdpp Require Import base gmap list strings.

Open Scope string_scope.
Open Scope list_scope.

(** ** Data model *)

(** The container descriptor returned by [get_containers]: its ['Id'] and
    an opaque rest. *)
Record container := mkContainer { Id : string; c_rest : string }.

(** Python exceptions that the code distinguishes. *)
Inductive exn :=
| DockerWrapperError
| KeyError (k : string)
| OtherError (what : string).

Inductive res (A : Type) :=
| Ok (a : A)
| Raise (e : exn).
Arguments Ok {A} a.
Arguments Raise {A} e.

(** A cache value: [{'ikey', 'registered', 'unregistered', 'container'}]. *)
Record entry := mkEntry {
  ikey : option string;
  registered : Q;
  unregistered : option Q;
  e_container : container
}.

Definition set_unregistered (t : Q) (e : entry) : entry :=
  mkEntry (ikey e) (registered e) (Some t) (e_container e).

Definition set_ikey (k : option string) (e : entry) : entry :=
  mkEntry k (registered e) (unregistered e) (e_container e).

(** Property values of the emitted dictionaries. *)
Inductive pval :=
| PStr (s : string)
| PNum (q : Q).

Definition props := gmap string pval.

(** A docker event and the inspection record read for it. *)
Record event := mkEvent { status : string; ev_id : string }.

Record inspection := mkInspection {
  Created : string;
  StartedAt : string;
  FinishedAt : string;
  ExitCode : Z;
  Error : option string;
  RestartCount : Z
}.

(** What [send_event] receives. *)
Inductive sent_event :=
| MetricEvent (metric : string) (properties : props)
| ContainerEvent (name : string) (key : string) (properties : props).

(** ** Python string helpers *)

(** [str.isspace] on ASCII: \t \n \v \f \r, \x1c-\x1f and space. *)
Definition is_space (c : ascii) : bool :=
  let n := nat_of_ascii c in
  (Nat.leb 9 n && Nat.leb n 13) || (Nat.leb 28 n && Nat.leb n 32).

Fixpoint lstrip_l (l : list ascii) : list ascii :=
  match l with
  | [] => []
  | c :: r => if is_space c then lstrip_l r else l
  end.

(** [str.strip()]. *)
Definition strip (s : string) : string :=
  string_of_list_ascii
    (rev (lstrip_l (rev (lstrip_l (list_ascii_of_string s))))).

(** [str.split(sep)] for a one-character separator: every piece, also
    the empty ones. *)
Fixpoint split_l (sep : ascii) (l : list ascii) : list (list ascii) :=
  match l with
  | [] => [[]]
  | c :: r =>
      if Ascii.eqb c sep then [] :: split_l sep r
      else match split_l sep r with
           | [] => [[c]]
           | p :: ps => (c :: p) :: ps
           end
  end.

Definition str_split (sep : ascii) (s : string) : list string :=
  map string_of_list_ascii (split_l sep (list_ascii_of_string s)).

Definition eq_sign : ascii := "="%char.

(** ** The docker wrapper and the convertors (collaborators) *)

Record DockerWrapper := mkWrapper {
  get_host_name : string;
  get_containers : Q -> list container;
  run_command : container -> string -> Q -> res string;
  get_stats : container -> nat -> res (list string);
  get_events : list event;
  get_inspection : event -> inspection;
  (** [dateutil.parser.parse], as seconds since the epoch *)
  parse_date : string -> Q
}.

Record Convertors := mkConvertors {
  convert_to_metrics : list string -> list string;
  get_container_properties : container -> string -> props;
  get_container_properties_from_inspect : inspection -> string -> props
}.

(** Constructor arguments of [DockerCollector]. *)
Record Config := mkConfig {
  sdk_file : string;
  samples_in_each_metric : nat;
  my_container_id_source : option string  (* docker_injector.get_my_container_id() *)
}.

Definition default_sdk_file := "/usr/appinsights/docker/sdk.info".

(** ** [remove_old_containers] *)

(** [remove_old_containers(current_containers, new_containers)] with
    [time.time() = now]: an id listed in [new_containers] keeps its value,
    an unlisted one is marked or, once marked more than 60 s ago, deleted. *)
Definition remove_old_containers (now : Q) (current_containers : gmap string entry)
    (new_containers : list container) : gmap string entry :=
  let curr_containers_ids := map Id new_containers in
  map_imap (fun key e =>
    if decide (key ∈ curr_containers_ids) then Some e
    else match unregistered e with
         | None => Some (set_unregistered now e)
         | Some u => if Qlt_le_dec u (now - 60)%Q then None else Some e
         end) current_containers.

(** ** The collector's state and the monad *)

Record St := mkSt {
  containers_state : gmap string entry;  (* self._containers_state *)
  my_container_id : option string;       (* self._my_container_id *)
  clock : Q;                             (* time.time() *)
  exec_log : list string;                (* ids of the containers exec'ed into, newest first *)
  sent : list sent_event                 (* what send_event received, in order *)
}.

Definition set_containers_state (m : gmap string entry) (s : St) : St :=
  mkSt m (my_container_id s) (clock s) (exec_log s) (sent s).
Definition set_my_container_id (o : option string) (s : St) : St :=
  mkSt (containers_state s) o (clock s) (exec_log s) (sent s).
Definition set_clock (t : Q) (s : St) : St :=
  mkSt (containers_state s) (my_container_id s) t (exec_log s) (sent s).
Definition add_exec (id : string) (s : St) : St :=
  mkSt (containers_state s) (my_container_id s) (clock s) (id :: exec_log s) (sent s).
Definition add_sent (e : sent_event) (s : St) : St :=
  mkSt (containers_state s) (my_container_id s) (clock s) (exec_log s) (sent s ++ [e]).

(** [add_sent] for each event of a list, in order. *)
Definition add_sents (l : list sent_event) (s : St) : St :=
  mkSt (containers_state s) (my_container_id s) (clock s) (exec_log s) (sent s ++ l).

Definition M (A : Type) := St -> res A * St.

Definition ret {A} (a : A) : M A := fun s => (Ok a, s).
Definition raise {A} (e : exn) : M A := fun s => (Raise e, s).
Definition bind {A B} (m : M A) (k : A -> M B) : M B := fun s =>
  match m s with
  | (Ok a, s') => k a s'
  | (Raise e, s') => (Raise e, s')
  end.
Definition lift_res {A} (r : res A) : M A := fun s => (r, s).
Definition modify (f : St -> St) : M unit := fun s => (Ok tt, f s).
Definition gets {A} (f : St -> A) : M A := fun s => (Ok (f s), s).

Notation "'let!' x ':=' m 'in' k" := (bind m (fun x => k))
  (at level 200, x name, m at level 100, k at level 200).
Notation "'do!' m 'in' k" := (bind m (fun _ => k))
  (at level 200, m at level 100, k at level 200).

Definition time_time : M Q := gets clock.
Definition time_sleep (d : Q) : M unit := modify (fun s => set_clock (clock s + d)%Q s).
Definition send_event (e : sent_event) : M unit := modify (add_sent e).

Fixpoint for_ {A} (xs : list A) (f : A -> M unit) : M unit :=
  match xs with
  | [] => ret tt
  | x :: r => do! f x in for_ r f
  end.

(** [list(executor.map(f, xs))]: see the header. *)
Fixpoint collect_results {B} (rs : list (res B)) : res (list B) :=
  match rs with
  | [] => Ok []
  | Raise e :: _ => Raise e
  | Ok b :: rs' =>
      match collect_results rs' with
      | Ok bs => Ok (b :: bs)
      | Raise e => Raise e
      end
  end.

Fixpoint run_tasks {A B} (t0 : Q) (f : A -> M B) (xs : list A) (s : St)
    : list (res B) * St * Q :=
  match xs with
  | [] => ([], s, t0)
  | x :: xs' =>
      let '(r, s1) := f x (set_clock t0 s) in
      let '(rs, s2, tend) := run_tasks t0 f xs' s1 in
      (r :: rs, s2, Qmax (clock s1) tend)
  end.

Definition executor_map {A B} (f : A -> M B) (xs : list A) : M (list B) := fun s =>
  let '(rs, s', tend) := run_tasks (clock s) f xs s in
  (collect_results rs, set_clock tend s').

(** ** Key discovery *)

Definition dq : string := String (ascii_of_nat 34) EmptyString.

(** [_cmd_template.format(file=...)]: [/bin/sh -c "[ -f F ] && cat F"]. *)
Definition cmd_template (file : string) : string :=
  ("/bin/sh -c " ++ dq ++ "[ -f " ++ file ++ " ] && cat " ++ file ++ dq)%string.

(** The body of [_get_container_sdk_info] after [run_command]. *)
Definition sdk_info_of (r : res string) : res (option string) :=
  match r with
  | Ok result =>
      let result := strip result in
      Ok (if String.eqb result "" then None else Some result)
  | Raise DockerWrapperError => Ok None
  | Raise e => Raise e
  end.

(** The body of [_get_container_sdk_ikey] after [_get_container_sdk_info]. *)
Definition sdk_ikey_of (sdk_info_file_content : option string) : option string :=
  match sdk_info_file_content with
  | None => None
  | Some content =>
      let splits := str_split eq_sign content in
      if Nat.ltb (length splits) 2 then None
      else nth_error (str_split eq_sign content) 1
  end.

(** What one discovery attempt yields for an exec result:
    [_get_container_sdk_ikey] after [run_command]. *)
Definition discovery_of (r : res string) : res (option string) :=
  match sdk_info_of r with
  | Ok info => Ok (sdk_ikey_of info)
  | Raise e => Raise e
  end.

Section Collector.
Context (w : DockerWrapper) (cv : Convertors) (cfg : Config).

Definition get_state : M (gmap string entry) := gets containers_state.
Definition put_state (m : gmap string entry) : M unit := modify (set_containers_state m).

(** [self._containers_state[k] = v], in place. *)
Definition dict_set (k : string) (v : entry) : M unit :=
  modify (fun s => set_containers_state (<[k := v]> (containers_state s)) s).

(** [DockerCollector._cmd_template.format(file=self._sdk_file)] *)
Definition sdk_cmd := cmd_template (sdk_file cfg).

Definition _get_container_sdk_info (c : container) : M (option string) :=
  let! t := time_time in
  do! modify (add_exec (Id c)) in
  lift_res (sdk_info_of (run_command w c sdk_cmd t)).

Definition _get_container_sdk_ikey (c : container) : M (option string) :=
  let! sdk_info_file_content := _get_container_sdk_info c in
  ret (sdk_ikey_of sdk_info_file_content).

(** The [for i in range(5)] loop of a first registration. *)
Fixpoint register_attempts (n : nat) (c : container) : M (option string) :=
  match n with
  | O => ret None
  | S n' =>
      let! ikey := _get_container_sdk_ikey c in
      let! t := time_time in
      do! dict_set (Id c) (mkEntry ikey t None c) in
      match ikey with
      | Some _ => ret ikey
      | None => do! time_sleep 1 in register_attempts n' c
      end
  end.

Definition _update_container_state (c : container) : M (option string) :=
  let id := Id c in
  let! st := get_state in
  match st !! id with
  | None => register_attempts 5 c
  | Some status =>
      match ikey status with
      | Some k => ret (Some k)
      | None =>
          let! t := time_time in
          if Qlt_le_dec (t - 60) (registered status) then
            (* status['ikey'] = ikey: status is the dictionary's own value *)
            let! ikey := _get_container_sdk_ikey c in
            do! dict_set id (set_ikey ikey status) in
            ret ikey
          else ret None
      end
  end.

Definition _update_containers_state (containers : list container) : M unit :=
  let! t := time_time in
  let! st := get_state in
  do! put_state (remove_old_containers t st containers) in
  let! _ := executor_map _update_container_state containers in
  ret tt.

(** ** [collect_stats_and_send] *)

(** [[v['container'] for k, v in self._containers_state.items()
      if k == self._my_container_id or v['ikey'] is None]]
    (the dictionary's items in gmap order). *)
Definition containers_without_sdk (my_id : option string) (st : gmap string entry)
    : list container :=
  map (fun kv => e_container kv.2)
    (List.filter (fun kv => bool_decide (my_id = Some kv.1 \/ ikey kv.2 = None))
       (map_to_list st)).

(** Lines 87-91: one [{'metric', 'properties'}] per converted metric of
    every container with more than one sample. *)
Definition send_metrics (host_name : string) (container_stats : list (container * list string))
    : M unit :=
  for_ (List.filter (fun cs => Nat.ltb 1 (length cs.2)) container_stats) (fun cs =>
    let '(c, stats) := cs in
    let metrics := convert_to_metrics cv stats in
    let properties := get_container_properties cv c host_name in
    for_ metrics (fun metric => send_event (MetricEvent metric properties))).

Definition get_stats_task (c : container) : M (container * list string) :=
  let! stats := lift_res (get_stats w c (samples_in_each_metric cfg)) in
  ret (c, stats).

Definition collect_stats_and_send : M unit :=
  let! my := gets my_container_id in
  do! (match my with
       | None => modify (set_my_container_id (my_container_id_source cfg))
       | Some _ => ret tt
       end) in
  let host_name := get_host_name w in
  let! t := time_time in
  let containers := get_containers w t in
  do! _update_containers_state containers in
  let! st := get_state in
  let! my := gets my_container_id in
  let! container_stats := executor_map get_stats_task (containers_without_sdk my st) in
  send_metrics host_name container_stats.

(** ** [collect_container_events] *)

Definition _get_container_sdk_ikey_from_containers_state (container_id : string)
    : M (option string) :=
  let! st := get_state in
  do! (match st !! container_id with
       | None => let! t := time_time in _update_containers_state (get_containers w t)
       | Some _ => ret tt
       end) in
  let! st := get_state in
  match st !! container_id with
  | Some e => ret (ikey e)
  | None => ret None
  end.

(** [properties['Docker container id']] is looked up in the string-keyed
    cache; a non-string value is never a key of it. *)
Definition ikey_for_property (p : pval) : M (option string) :=
  match p with
  | PStr container_id => _get_container_sdk_ikey_from_containers_state container_id
  | PNum _ =>
      let! t := time_time in
      do! _update_containers_state (get_containers w t) in
      ret None
  end.

Definition allowed_statuses := ["start"; "stop"; "die"; "restart"; "pause"; "unpause"].

Definition duration_props (inspect : inspection) (p : props) : props :=
  let p := <["docker-FinishedAt" := PStr (FinishedAt inspect)]> p in
  let p := <["docker-ExitCode" := PNum (inject_Z (ExitCode inspect))]> p in
  let error := Error inspect in
  let p := <["docker-Error" := PStr (match error with Some e => e | None => "" end)]> p in
  let duration_seconds :=
    (parse_date w (FinishedAt inspect) - parse_date w (StartedAt inspect))%Q in
  let p := <["docker-duration-seconds" := PNum duration_seconds]> p in
  let p := <["docker-duration-minutes" := PNum (duration_seconds / 60)%Q]> p in
  let p := <["docker-duration-hours" := PNum (duration_seconds / 3600)%Q]> p in
  <["docker-duration-days" := PNum (duration_seconds / 86400)%Q]> p.

(** The keys only a stop or die event gets. *)
Definition terminal_keys : list string :=
  ["docker-FinishedAt"; "docker-ExitCode"; "docker-Error"; "docker-duration-seconds";
   "docker-duration-minutes"; "docker-duration-hours"; "docker-duration-days"].

(** One iteration of the [for event in ...] loop. *)
Definition process_event (host_name : string) (ev : event) : M unit :=
  let status := status ev in
  if negb (bool_decide (status ∈ allowed_statuses)) then ret tt else
  let event_name := ("docker-container-" ++ status)%string in
  let inspect := get_inspection w ev in
  let properties := get_container_properties_from_inspect cv inspect host_name in
  match properties !! "Docker container id" with
  | None => raise (KeyError "Docker container id")
  | Some cid =>
      let! ikey_to_send_event := ikey_for_property cid in
      let properties := <["docker-status" := PStr status]> properties in
      let properties := <["docker-Created" := PStr (Created inspect)]> properties in
      let properties := <["docker-StartedAt" := PStr (StartedAt inspect)]> properties in
      let properties :=
        <["docker-RestartCount" := PNum (inject_Z (RestartCount inspect))]> properties in
      let properties :=
        if bool_decide (status ∈ ["stop"; "die"]) then duration_props inspect properties
        else properties in
      send_event (ContainerEvent event_name
                    (match ikey_to_send_event with Some k => k | None => "" end)
                    properties)
  end.

Definition event_loop (host_name : string) (events : list event) : M unit :=
  for_ events (process_event host_name).

Definition collect_container_events : M unit :=
  event_loop (get_host_name w) (get_events w).

End Collector.

(** ** A small concrete environment, for the examples *)

Definition demo_container (id : string) : container := mkContainer id "".

Definition demo_inspection : inspection :=
  mkInspection "2016-01-01T00:00:00Z" "T0" "T1" 0 None 0.

(** Every exec prints [sdk_output]; there are no stats and no events. *)
Definition demo_wrapper (sdk_output : string) : DockerWrapper :=
  mkWrapper "host" (fun _ => []) (fun _ _ _ => Ok sdk_output) (fun _ _ => Ok []) []
    (fun _ => demo_inspection) (fun _ => 0%Q).

Definition demo_convertors : Convertors :=
  mkConvertors (fun samples => samples) (fun _ _ => ∅)
    (fun _ _ => {[ "Docker container id" := PStr "a" ]}).

Definition demo_no_id_convertors : Convertors :=
  mkConvertors (fun samples => samples) (fun _ _ => ∅) (fun _ _ => ∅).

Definition demo_cfg : Config := mkConfig default_sdk_file 2 None.

Definition demo_state (cache : gmap string entry) (now : Q) : St :=
  mkSt cache None now [] [].

(** As [demo_wrapper], with [get_events] given and the dates of
    [demo_inspection] parsed as [T0] at 0 s and [T1] at 125 s. *)
Definition demo_timed_wrapper (sdk_output : string) (events : list event) : DockerWrapper :=
  mkWrapper "host" (fun _ => []) (fun _ _ _ => Ok sdk_output) (fun _ _ => Ok []) events
    (fun _ => demo_inspection) (fun d => if String.eqb d "T1" then 125%Q else 0%Q).

(** * Properties *)

(** ** Frames: which cache keys and exec log entries a computation touches *)

Definition keeps (ids : list string) (s s' : St) : Prop :=
  (forall k, k ∉ ids -> containers_state s' !! k = containers_state s !! k) /\
  (exists l, exec_log s' = l ++ exec_log s /\ forall x, x ∈ l -> x ∈ ids) /\
  sent s' = sent s /\ my_container_id s' = my_container_id s.

Definition framed (ids : list string) {A} (m : M A) : Prop :=
  forall s, keeps ids s (snd (m s)).

Ltac keeps_same :=
  split; [done|]; split; [exists []; split; [done|set_solver]|done].

Lemma keeps_refl ids s : keeps ids s s.
Proof. keeps_same. Qed.

Lemma keeps_trans ids s1 s2 s3 : keeps ids s1 s2 -> keeps ids s2 s3 -> keeps ids s1 s3.
Proof.
  intros (H1 & (l1 & E1 & F1) & S1 & M1) (H2 & (l2 & E2 & F2) & S2 & M2).
  split; [intros k Hk; rewrite H2, H1; done|].
  split; [|split; congruence].
  exists (l2 ++ l1). rewrite E2, E1, app_assoc. split; [done|].
  intros x Hx. apply elem_of_app in Hx as [Hx|Hx]; auto.
Qed.

Lemma keeps_mono ids ids' s s' :
  (forall x, x ∈ ids -> x ∈ ids') -> keeps ids s s' -> keeps ids' s s'.
Proof.
  intros Hi (H1 & (l & E & F) & S1 & M1). split; [|split; [exists l; split; auto|done]].
  intros k Hk. apply H1. intros Hk'. apply Hk, Hi, Hk'.
Qed.

Lemma keeps_set_clock ids s t : keeps ids s (set_clock t s).
Proof. keeps_same. Qed.

Lemma framed_bind ids {A B} (m : M A) (k : A -> M B) :
  framed ids m -> (forall a, framed ids (k a)) -> framed ids (bind m k).
Proof.
  intros Hm Hk s. specialize (Hm s). unfold bind.
  destruct (m s) as [[a|e] s'] eqn:E; simpl in *; [|done].
  eapply keeps_trans; [exact Hm|apply Hk].
Qed.

Lemma framed_ret ids {A} (a : A) : framed ids (ret a).
Proof. intros s. apply keeps_refl. Qed.
Lemma framed_raise ids {A} e : framed ids (@raise A e).
Proof. intros s. apply keeps_refl. Qed.
Lemma framed_lift_res ids {A} (r : res A) : framed ids (lift_res r).
Proof. intros s. apply keeps_refl. Qed.
Lemma framed_gets ids {A} (f : St -> A) : framed ids (gets f).
Proof. intros s. apply keeps_refl. Qed.
Lemma framed_time_time ids : framed ids time_time.
Proof. apply framed_gets. Qed.
Lemma framed_get_state ids : framed ids get_state.
Proof. apply framed_gets. Qed.
Lemma framed_time_sleep ids d : framed ids (time_sleep d).
Proof. intros s. keeps_same. Qed.
Lemma framed_add_exec ids i : i ∈ ids -> framed ids (modify (add_exec i)).
Proof.
  intros Hi s. split; [done|]. split; [|done].
  exists [i]. split; [done|]. intros x Hx. apply list_elem_of_singleton in Hx. by subst.
Qed.
Lemma framed_dict_set ids i v : i ∈ ids -> framed ids (dict_set i v).
Proof.
  intros Hi s. split; [|split; [exists []; split; [done|set_solver]|done]].
  intros k Hk. simpl. rewrite lookup_insert_ne; [done|]. intros ->. done.
Qed.

Lemma elem_of_self_singleton (x : string) : x ∈ [x].
Proof. by apply list_elem_of_singleton. Qed.

Create HintDb framed.
#[export] Hint Resolve elem_of_self_singleton : framed.
#[export] Hint Resolve framed_ret framed_raise framed_lift_res framed_gets framed_time_time
  framed_get_state framed_time_sleep framed_add_exec framed_dict_set : framed.

Ltac frame_tac :=
  repeat match goal with
  | |- framed _ (bind _ _) => apply framed_bind; [|intros ?]
  | |- framed _ (match ?x with _ => _ end) => destruct x
  | |- framed _ (if ?x then _ else _) => destruct x
  | |- _ ∈ [_] => apply list_elem_of_singleton; reflexivity
  | |- framed _ _ => eauto with framed
  end.

Section Frames.
Context (w : DockerWrapper) (cv : Convertors) (cfg : Config).

Lemma framed_sdk_info c : framed [Id c] (_get_container_sdk_info w cfg c).
Proof. unfold _get_container_sdk_info. frame_tac. Qed.

Lemma framed_sdk_ikey c : framed [Id c] (_get_container_sdk_ikey w cfg c).
Proof. unfold _get_container_sdk_ikey. frame_tac. apply framed_sdk_info. Qed.
#[local] Hint Resolve framed_sdk_ikey : framed.

Lemma framed_register n c : framed [Id c] (register_attempts w cfg n c).
Proof. induction n; simpl; frame_tac. Qed.
#[local] Hint Resolve framed_register : framed.

Lemma framed_update c : framed [Id c] (_update_container_state w cfg c).
Proof. unfold _update_container_state. frame_tac. Qed.

End Frames.

Lemma run_tasks_keeps {A B} (f : A -> M B) (g : A -> string) :
  (forall x, framed [g x] (f x)) ->
  forall t0 xs s, keeps (map g xs) s (snd (fst (run_tasks t0 f xs s))).
Proof.
  intros Hf t0 xs. induction xs as [|x xs IH]; intros s; simpl; [apply keeps_refl|].
  destruct (f x (set_clock t0 s)) as [r s1] eqn:E1.
  destruct (run_tasks t0 f xs s1) as [[rs s2] te] eqn:E2. simpl.
  eapply keeps_trans; [apply (keeps_set_clock _ s t0)|].
  eapply keeps_trans.
  - eapply keeps_mono; [|specialize (Hf x (set_clock t0 s)); rewrite E1 in Hf; exact Hf].
    intros y Hy. apply list_elem_of_singleton in Hy. subst. left.
  - eapply keeps_mono; [|specialize (IH s1); rewrite E2 in IH; exact IH].
    intros y Hy. right. exact Hy.
Qed.

Section Pass.
Context (w : DockerWrapper) (cv : Convertors) (cfg : Config).

(** The refresh pass: eviction, then the fan-out from the evicted state. *)
Lemma update_containers_state_unfold containers s :
  _update_containers_state w cfg containers s =
  let s1 := set_containers_state
              (remove_old_containers (clock s) (containers_state s) containers) s in
  let '(rs, s2, tend) := run_tasks (clock s1) (_update_container_state w cfg) containers s1 in
  (match collect_results rs with Ok _ => Ok tt | Raise e => Raise e end,
   set_clock tend s2).
Proof.
  unfold _update_containers_state, bind, time_time, get_state, gets, put_state, modify,
    executor_map. simpl.
  destruct (run_tasks _ _ _ _) as [[rs s2] te]. simpl.
  destruct (collect_results rs); reflexivity.
Qed.

(** Ids that are not listed end the pass as the eviction left them. *)
Lemma pass_unlisted containers s k :
  k ∉ map Id containers ->
  containers_state (snd (_update_containers_state w cfg containers s)) !! k =
  remove_old_containers (clock s) (containers_state s) containers !! k.
Proof.
  intros Hk. rewrite update_containers_state_unfold. simpl.
  pose proof (run_tasks_keeps _ Id (framed_update w cfg) (clock s) containers
    (set_containers_state (remove_old_containers (clock s) (containers_state s) containers) s))
    as (H & _).
  destruct (run_tasks _ _ _ _) as [[rs s2] te]. simpl in *.
  rewrite (H k Hk). reflexivity.
Qed.

End Pass.

Lemma remove_old_containers_lookup now cur new k :
  remove_old_containers now cur new !! k =
  cur !! k ≫= (fun e =>
    if decide (k ∈ map Id new) then Some e
    else match unregistered e with
         | None => Some (set_unregistered now e)
         | Some u => if Qlt_le_dec u (now - 60)%Q then None else Some e
         end).
Proof. unfold remove_old_containers. by rewrite map_lookup_imap. Qed.

Section Tracking.
Context (w : DockerWrapper) (cfg : Config).

(** Following one id [i] through the fan-out: tasks for other ids leave
    its entry alone, so an invariant of its entry that every task for [i]
    (started at [t0]) preserves holds at the end. *)
Lemma run_tasks_inv (i : string) (Inv : option entry -> Prop) t0 xs s :
  Inv (containers_state s !! i) ->
  (forall x s0, Id x = i -> clock s0 = t0 -> Inv (containers_state s0 !! i) ->
     Inv (containers_state (snd (_update_container_state w cfg x s0)) !! i)) ->
  Inv (containers_state (snd (fst (run_tasks t0 (_update_container_state w cfg) xs s))) !! i).
Proof.
  intros H0 Ht. revert s H0. induction xs as [|x xs IH]; intros s H0; simpl; [done|].
  destruct (_update_container_state w cfg x (set_clock t0 s)) as [r s1] eqn:E1.
  specialize (IH s1).
  destruct (run_tasks t0 _ xs s1) as [[rs s2] te]. simpl in *. apply IH.
  destruct (decide (Id x = i)) as [Hx|Hx].
  - specialize (Ht x (set_clock t0 s) Hx eq_refl H0). rewrite E1 in Ht. exact Ht.
  - pose proof (framed_update w cfg x (set_clock t0 s)) as (Hk & _). rewrite E1 in Hk.
    simpl in Hk. rewrite Hk; [exact H0|]. intros Hin. apply list_elem_of_singleton in Hin. auto.
Qed.

(** The same, when moreover no task for [i] execs into [i]'s container. *)
Lemma run_tasks_noexec (i : string) (Inv : option entry -> Prop) t0 xs s :
  Inv (containers_state s !! i) ->
  (forall x s0, Id x = i -> clock s0 = t0 -> Inv (containers_state s0 !! i) ->
     Inv (containers_state (snd (_update_container_state w cfg x s0)) !! i) /\
     exists l, exec_log (snd (_update_container_state w cfg x s0)) = l ++ exec_log s0 /\ i ∉ l) ->
  exists l, exec_log (snd (fst (run_tasks t0 (_update_container_state w cfg) xs s))) =
            l ++ exec_log s /\ i ∉ l.
Proof.
  intros H0 Ht. revert s H0. induction xs as [|x xs IH]; intros s H0; simpl.
  { exists []. split; [done|set_solver]. }
  destruct (_update_container_state w cfg x (set_clock t0 s)) as [r s1] eqn:E1.
  specialize (IH s1).
  destruct (run_tasks t0 _ xs s1) as [[rs s2] te]. simpl in *.
  assert (Inv (containers_state s1 !! i) /\
          exists l, exec_log s1 = l ++ exec_log s /\ i ∉ l) as [H1 (l1 & El1 & Nl1)].
  { destruct (decide (Id x = i)) as [Hx|Hx].
    - specialize (Ht x (set_clock t0 s) Hx eq_refl H0). rewrite E1 in Ht. exact Ht.
    - pose proof (framed_update w cfg x (set_clock t0 s)) as (Hk & (l & El & Fl) & _).
      rewrite E1 in Hk, El. simpl in *. split.
      + rewrite Hk; [exact H0|]. intros Hin. apply list_elem_of_singleton in Hin. auto.
      + exists l. split; [exact El|]. intros Hin. apply Fl, list_elem_of_singleton in Hin. auto. }
  destruct (IH H1) as (l2 & El2 & Nl2). exists (l2 ++ l1).
  rewrite El2, El1, app_assoc. split; [done|]. rewrite elem_of_app. tauto.
Qed.

(** The pass, seen from the state the eviction leaves. *)
Lemma pass_from_evicted containers s :
  let s1 := set_containers_state
              (remove_old_containers (clock s) (containers_state s) containers) s in
  containers_state (snd (_update_containers_state w cfg containers s)) =
    containers_state (snd (fst (run_tasks (clock s) (_update_container_state w cfg) containers s1))) /\
  exec_log (snd (_update_containers_state w cfg containers s)) =
    exec_log (snd (fst (run_tasks (clock s) (_update_container_state w cfg) containers s1))).
Proof.
  rewrite update_containers_state_unfold. simpl.
  destruct (run_tasks _ _ _ _) as [[rs s2] te]. done.
Qed.

(** A task for a container whose entry has a key changes nothing. *)
Lemma update_known c s e k :
  containers_state s !! Id c = Some e -> ikey e = Some k ->
  _update_container_state w cfg c s = (Ok (Some k), s).
Proof.
  intros He Hk. unfold _update_container_state, bind, get_state, gets. simpl.
  rewrite He, Hk. reflexivity.
Qed.

(** A refresh pass neither execs into a container whose entry has a key nor
    changes that key; a listed one keeps its entry as it was. *)
Lemma known_key_pass containers s i e k :
  containers_state s !! i = Some e -> ikey e = Some k ->
  let s' := snd (_update_containers_state w cfg containers s) in
  (exists l, exec_log s' = l ++ exec_log s /\ i ∉ l) /\
  (containers_state s' !! i = None \/
   exists e', containers_state s' !! i = Some e' /\ ikey e' = Some k) /\
  (i ∈ map Id containers -> containers_state s' !! i = Some e).
Proof.
  intros He Hk s'. subst s'.
  destruct (pass_from_evicted containers s) as [Ecs Elog]. rewrite Ecs, Elog.
  set (s1 := set_containers_state _ s).
  destruct (decide (i ∈ map Id containers)) as [Hin|Hout].
  - assert (H1 : containers_state s1 !! i = Some e).
    { simpl. rewrite remove_old_containers_lookup, He. simpl.
      rewrite decide_True by done. done. }
    assert (Hstep : forall x s0, Id x = i -> clock s0 = clock s ->
              containers_state s0 !! i = Some e ->
              containers_state (snd (_update_container_state w cfg x s0)) !! i = Some e /\
              exists l, exec_log (snd (_update_container_state w cfg x s0)) =
                        l ++ exec_log s0 /\ i ∉ l).
    { intros x s0 Hx _ H0. subst i. rewrite (update_known x s0 e k H0 Hk). simpl.
      split; [done|]. exists []. split; [done|set_solver]. }
    split; [|split].
    + destruct (run_tasks_noexec i (fun o => o = Some e) (clock s) containers s1 H1)
        as (l & El & Nl); [intros x s0 Hx Hc H0; apply Hstep; auto|].
      exists l. split; [exact El|exact Nl].
    + right. exists e. split; [|done].
      apply (run_tasks_inv i (fun o => o = Some e)); [exact H1|].
      intros x s0 Hx Hc H0. apply Hstep; auto.
    + intros _. apply (run_tasks_inv i (fun o => o = Some e)); [exact H1|].
      intros x s0 Hx Hc H0. apply Hstep; auto.
  - pose proof (run_tasks_keeps _ Id (framed_update w cfg) (clock s) containers s1)
      as (Hk1 & (l & El & Fl) & _).
    split; [|split].
    + exists l. split; [exact El|]. intros Hl. apply Hout, Fl, Hl.
    + rewrite (Hk1 i Hout). simpl. rewrite remove_old_containers_lookup, He. simpl.
      rewrite decide_False by done.
      destruct (unregistered e) as [u|].
      * destruct (Qlt_le_dec u (clock s - 60)); [left; done|right; exists e; done].
      * right. eexists; split; [done|]. exact Hk.
    + intros Hin. contradiction.
Qed.

End Tracking.




Section Discovery.
Context (w : DockerWrapper) (cfg : Config).

Lemma sdk_ikey_step c s :
  _get_container_sdk_ikey w cfg c s =
  (discovery_of (run_command w c (sdk_cmd cfg) (clock s)), add_exec (Id c) s).
Proof.
  unfold _get_container_sdk_ikey, _get_container_sdk_info, discovery_of, bind, time_time,
    gets, modify, lift_res, ret, sdk_cmd. simpl.
  destruct (sdk_info_of _); reflexivity.
Qed.

Lemma register_step n c s :
  register_attempts w cfg (S n) c s =
  match discovery_of (run_command w c (sdk_cmd cfg) (clock s)) with
  | Raise e => (Raise e, add_exec (Id c) s)
  | Ok ikey =>
      let s1 := set_containers_state
                  (<[Id c := mkEntry ikey (clock s) None c]> (containers_state s))
                  (add_exec (Id c) s) in
      match ikey with
      | Some _ => (Ok ikey, s1)
      | None => register_attempts w cfg n c (set_clock (clock s1 + 1)%Q s1)
      end
  end.
Proof.
  simpl register_attempts. unfold bind at 1. rewrite sdk_ikey_step.
  destruct (discovery_of _) as [[k|]|e]; reflexivity.
Qed.

(** At most [n] attempts, all for this container. *)
Lemma register_attempts_bound n c s :
  exists l, exec_log (snd (register_attempts w cfg n c s)) = l ++ exec_log s /\
            length l <= n /\ forall x, x ∈ l -> x = Id c.
Proof.
  revert s. induction n as [|n IH]; intros s.
  { exists []. simpl. split; [done|]. split; [lia|set_solver]. }
  rewrite register_step.
  destruct (discovery_of _) as [[k|]|e]; simpl.
  - exists [Id c]. split; [done|]. split; [simpl; lia|set_solver].
  - destruct (IH (set_clock (clock s + 1)%Q
        (set_containers_state (<[Id c:=mkEntry None (clock s) None c]> (containers_state s))
           (add_exec (Id c) s)))) as (l & El & Ll & Fl).
    exists (l ++ [Id c]). rewrite El, <- app_assoc. split; [done|].
    rewrite length_app. simpl. split; [lia|].
    intros x Hx. apply elem_of_app in Hx as [Hx|Hx]; [auto|set_solver].
  - exists [Id c]. split; [done|]. split; [simpl; lia|set_solver].
Qed.

(** When discovery never yields a key: [n] attempts, one second of sleep
    after each, and the entry is stored with no key. *)
Lemma register_attempts_never n c s :
  (forall t, discovery_of (run_command w c (sdk_cmd cfg) t) = Ok None) ->
  let s' := snd (register_attempts w cfg n c s) in
  fst (register_attempts w cfg n c s) = Ok None /\
  exec_log s' = repeat (Id c) n ++ exec_log s /\
  (clock s' == clock s + inject_Z (Z.of_nat n))%Q /\
  (n <> O -> exists e, containers_state s' !! Id c = Some e /\ ikey e = None).
Proof.
  intros Hn. revert s. induction n as [|n IH]; intros s; cbv zeta.
  { simpl. split; [done|]. split; [done|]. split; [|done].
    change (inject_Z (Z.of_nat 0)) with 0%Q. lra. }
  rewrite register_step, Hn. cbv zeta.
  set (s1 := set_clock _ (set_containers_state _ _)).
  destruct (IH s1) as (R & El & Ec & Ee). cbv zeta in El, Ec, Ee. split; [exact R|].
  split.
  { rewrite El. simpl. generalize (exec_log s). clear.
    induction n as [|n IHn]; intros l; simpl; [done|]. by rewrite IHn. }
  split.
  - rewrite Ec. unfold s1. cbn [clock set_clock set_containers_state add_exec].
    rewrite Nat2Z.inj_succ, <- Z.add_1_r, inject_Z_plus.
    change (inject_Z 1) with 1%Q. lra.
  - intros _. destruct n as [|n].
    + simpl. eexists. rewrite lookup_insert_eq. split; reflexivity.
    + apply Ee. done.
Qed.

End Discovery.

Section Single.
Context (w : DockerWrapper) (cfg : Config).

Abbreviation upd := (_update_container_state w cfg).

(** With distinct ids, what happens to id [i] in the fan-out is what its
    one task does, from a state that agrees with the initial one on [i]. *)
Lemma run_tasks_nodup_split i t0 xs s :
  NoDup (map Id xs) -> i ∈ map Id xs ->
  let s' := snd (fst (run_tasks t0 upd xs s)) in
  exists x s0, x ∈ xs /\ Id x = i /\ clock s0 = t0 /\
    containers_state s0 !! i = containers_state s !! i /\
    (exists l0, exec_log s0 = l0 ++ exec_log s /\ i ∉ l0) /\
    containers_state s' !! i = containers_state (snd (upd x s0)) !! i /\
    (exists l1, exec_log s' = l1 ++ exec_log (snd (upd x s0)) /\ i ∉ l1).
Proof.
  revert s. induction xs as [|x xs IH]; intros s Hnd Hin s'; subst s'; simpl in *.
  { apply elem_of_nil in Hin. contradiction. }
  apply NoDup_cons in Hnd as [Hx Hnd].
  destruct (upd x (set_clock t0 s)) as [r s1] eqn:E1.
  destruct (run_tasks t0 upd xs s1) as [[rs s2] te] eqn:E2. simpl.
  destruct (decide (Id x = i)) as [Hxi|Hxi].
  - subst i. exists x, (set_clock t0 s).
    split; [left|]. split; [done|]. split; [done|]. split; [done|].
    split; [exists []; split; [done|set_solver]|].
    rewrite E1. simpl.
    pose proof (run_tasks_keeps _ Id (framed_update w cfg) t0 xs s1) as (Hk & (l & El & Fl) & _).
    rewrite E2 in Hk, El. simpl in *.
    split; [apply Hk; exact Hx|].
    exists l. split; [exact El|]. intros Hl. apply Hx, Fl, Hl.
  - assert (Hin' : i ∈ map Id xs).
    { apply elem_of_cons in Hin as [Hin|Hin]; [congruence|exact Hin]. }
    destruct (IH s1 Hnd Hin') as (x' & s0 & Hx'in & Hx' & Hc & Hl0 & (l0 & El0 & Nl0) & Hfin & Hlog).
    rewrite E2 in Hfin, Hlog. simpl in *.
    pose proof (framed_update w cfg x (set_clock t0 s)) as (Hk & (lx & Elx & Flx) & _).
    rewrite E1 in Hk, Elx. simpl in *.
    exists x', s0. split; [right; exact Hx'in|]. split; [done|]. split; [done|].
    split; [rewrite Hl0; apply Hk; intros Hi; apply list_elem_of_singleton in Hi; auto|].
    split; [|split; [exact Hfin|exact Hlog]].
    exists (l0 ++ lx). rewrite El0, Elx, app_assoc. split; [done|].
    rewrite elem_of_app. intros [H|H]; [auto|].
    apply Flx, list_elem_of_singleton in H. auto.
Qed.

(** A task for a keyless entry registered more than 60 s before its start
    changes nothing. *)
Lemma update_stale c s e :
  containers_state s !! Id c = Some e -> ikey e = None ->
  (registered e < clock s - 60)%Q ->
  upd c s = (Ok None, s).
Proof.
  intros He Hk Hr. unfold _update_container_state, bind, get_state, gets, time_time. simpl.
  rewrite He, Hk. destruct (Qlt_le_dec (clock s - 60) (registered e)); [lra|reflexivity].
Qed.

End Single.


Lemma update_new w cfg c s :
  containers_state s !! Id c = None ->
  _update_container_state w cfg c s = register_attempts w cfg 5 c s.
Proof.
  intros Hn. unfold _update_container_state, bind, get_state, gets. simpl. by rewrite Hn.
Qed.

Lemma elem_of_map_Id c (xs : list container) : c ∈ xs -> Id c ∈ map Id xs.
Proof. intros H. apply list_elem_of_In, in_map, list_elem_of_In, H. Qed.

Lemma count_occ_absent (i : string) (l : list string) :
  i ∉ l -> count_occ string_dec l i = 0.
Proof. intros H. apply count_occ_not_In. intros Hin. apply H, list_elem_of_In, Hin. Qed.


Lemma update_existing w cfg c s e :
  containers_state s !! Id c = Some e ->
  exists e', containers_state (snd (_update_container_state w cfg c s)) !! Id c = Some e' /\
             unregistered e' = unregistered e.
Proof.
  intros He. unfold _update_container_state, bind at 1, get_state, gets. simpl. rewrite He.
  destruct (ikey e) as [k|].
  { exists e. split; [exact He|reflexivity]. }
  unfold bind at 1, time_time, gets. simpl.
  destruct (Qlt_le_dec (clock s - 60) (registered e)).
  - unfold bind at 1. rewrite sdk_ikey_step.
    destruct (discovery_of _) as [ikey|ex]; simpl.
    + eexists. rewrite lookup_insert_eq. split; reflexivity.
    + exists e. split; [exact He|reflexivity].
  - exists e. split; [exact He|reflexivity].
Qed.

Lemma register_unregistered_none w cfg n c s :
  (forall e, containers_state s !! Id c = Some e -> unregistered e = None) ->
  forall e, containers_state (snd (register_attempts w cfg n c s)) !! Id c = Some e ->
            unregistered e = None.
Proof.
  revert s. induction n as [|n IH]; intros s Hs; [exact Hs|].
  rewrite register_step.
  destruct (discovery_of _) as [[k|]|ex]; simpl.
  - intros e. rewrite lookup_insert_eq. intros [= <-]. reflexivity.
  - apply IH. simpl. intros e. rewrite lookup_insert_eq. intros [= <-]. reflexivity.
  - exact Hs.
Qed.


Section NoEscape.
Context (w : DockerWrapper) (cfg : Config).
Hypothesis exec_fails_as_wrapper_error :
  forall c cmd t e, run_command w c cmd t = Raise e -> e = DockerWrapperError.

Lemma discovery_ok c t : exists o, discovery_of (run_command w c (sdk_cmd cfg) t) = Ok o.
Proof.
  unfold discovery_of, sdk_info_of.
  destruct (run_command w c (sdk_cmd cfg) t) as [r|e] eqn:E; [eauto|].
  rewrite (exec_fails_as_wrapper_error _ _ _ _ E). eauto.
Qed.

Lemma register_ok n c s : exists r, fst (register_attempts w cfg n c s) = Ok r.
Proof.
  revert s. induction n as [|n IH]; intros s; [simpl; eauto|].
  rewrite register_step. destruct (discovery_ok c (clock s)) as [o ->].
  destruct o; simpl; eauto.
Qed.

Lemma update_ok c s : exists r, fst (_update_container_state w cfg c s) = Ok r.
Proof.
  destruct (containers_state s !! Id c) as [e|] eqn:E.
  - unfold _update_container_state, bind at 1, get_state, gets. simpl. rewrite E.
    destruct (ikey e); [simpl; eauto|].
    unfold bind at 1, time_time, gets. simpl.
    destruct (Qlt_le_dec _ _); [|simpl; eauto].
    unfold bind at 1. rewrite sdk_ikey_step. destruct (discovery_ok c (clock s)) as [o ->].
    simpl. eauto.
  - rewrite (update_new w cfg c s E). apply register_ok.
Qed.

Lemma run_tasks_all_ok t0 xs s :
  exists bs, collect_results (fst (fst (run_tasks t0 (_update_container_state w cfg) xs s))) = Ok bs.
Proof.
  revert s. induction xs as [|x xs IH]; intros s; simpl; [eauto|].
  destruct (_update_container_state w cfg x (set_clock t0 s)) as [r s1] eqn:E1.
  destruct (update_ok x (set_clock t0 s)) as [b Hb]. rewrite E1 in Hb. simpl in Hb. subst r.
  destruct (IH s1) as [bs Hbs].
  destruct (run_tasks t0 _ xs s1) as [[rs s2] te]. simpl in *. rewrite Hbs. eauto.
Qed.

(** When the exec fails only with [DockerWrapperError], a refresh pass
    never raises. *)
Lemma pass_ok containers s : fst (_update_containers_state w cfg containers s) = Ok tt.
Proof.
  rewrite update_containers_state_unfold. cbv zeta.
  destruct (run_tasks_all_ok (clock s) containers
    (set_containers_state (remove_old_containers (clock s) (containers_state s) containers) s))
    as [bs Hbs].
  destruct (run_tasks _ _ _ _) as [[rs s2] te]. simpl in *. rewrite Hbs. reflexivity.
Qed.

End NoEscape.

Lemma run_tasks_stats w cfg t0 xs s :
  fst (fst (run_tasks t0 (get_stats_task w cfg) xs s)) =
  map (fun c => match get_stats w c (samples_in_each_metric cfg) with
                | Ok st => Ok (c, st) | Raise e => Raise e end) xs.
Proof.
  revert s. induction xs as [|x xs IH]; intros s; simpl; [done|].
  unfold get_stats_task, bind, lift_res, ret.
  destruct (get_stats w x _) as [st|e]; simpl;
    [specialize (IH (set_clock t0 s))|specialize (IH (set_clock t0 s))];
    destruct (run_tasks t0 _ xs _) as [[rs s2] te]; simpl in *; rewrite IH; reflexivity.
Qed.

Lemma collect_results_first_raise {B} (pre : list (res B)) e post :
  (forall r, r ∈ pre -> exists b, r = Ok b) ->
  collect_results (pre ++ Raise e :: post) = Raise e.
Proof.
  induction pre as [|r pre IH]; intros Hpre; simpl; [done|].
  destruct (Hpre r (list_elem_of_here _ _)) as [b ->].
  rewrite IH; [done|]. intros r' Hr'. apply Hpre. by apply list_elem_of_further.
Qed.


Lemma add_sents_app l1 l2 s : add_sents l2 (add_sents l1 s) = add_sents (l1 ++ l2) s.
Proof. unfold add_sents. simpl. by rewrite app_assoc. Qed.

Lemma add_sents_nil s : add_sents [] s = s.
Proof. destruct s. unfold add_sents. simpl. by rewrite app_nil_r. Qed.

Lemma for_sends {A} (xs : list A) (f : A -> list sent_event) (body : A -> M unit) s :
  (forall x s0, body x s0 = (Ok tt, add_sents (f x) s0)) ->
  for_ xs body s = (Ok tt, add_sents (flat_map f xs) s).
Proof.
  intros Hb. revert s. induction xs as [|x xs IH]; intros s; simpl.
  - by rewrite add_sents_nil.
  - unfold bind. rewrite Hb, IH, add_sents_app. reflexivity.
Qed.


Lemma pass_sent w cfg containers s :
  sent (snd (_update_containers_state w cfg containers s)) = sent s.
Proof.
  rewrite update_containers_state_unfold. cbv zeta.
  pose proof (run_tasks_keeps _ Id (framed_update w cfg) (clock s) containers
    (set_containers_state (remove_old_containers (clock s) (containers_state s) containers) s))
    as (_ & _ & Hs & _).
  destruct (run_tasks _ _ _ _) as [[rs s2] te]. simpl in *. exact Hs.
Qed.

(** Resolving the key of an event's container does not raise (the exec
    failing only with [DockerWrapperError]) and sends nothing. *)
Lemma ikey_for_property_ok w cfg p s :
  (forall c cmd t e, run_command w c cmd t = Raise e -> e = DockerWrapperError) ->
  exists r s', ikey_for_property w cfg p s = (Ok r, s') /\ sent s' = sent s.
Proof.
  intros Hexec. destruct p as [cid|q].
  - unfold ikey_for_property, _get_container_sdk_ikey_from_containers_state, bind at 1 2,
      get_state, gets. simpl.
    destruct (containers_state s !! cid) as [e|] eqn:E.
    + unfold ret, bind. simpl. rewrite E. eauto.
    + unfold bind at 1, time_time, gets. simpl.
      pose proof (pass_ok w cfg Hexec (get_containers w (clock s)) s) as Hok.
      pose proof (pass_sent w cfg (get_containers w (clock s)) s) as Hs.
      destruct (_update_containers_state w cfg (get_containers w (clock s)) s) as [r s1].
      simpl in Hok, Hs. subst r. unfold bind, gets. simpl.
      destruct (containers_state s1 !! cid); eauto.
  - unfold ikey_for_property, bind, time_time, gets, ret. simpl.
    pose proof (pass_ok w cfg Hexec (get_containers w (clock s)) s) as Hok.
    pose proof (pass_sent w cfg (get_containers w (clock s)) s) as Hs.
    destruct (_update_containers_state w cfg (get_containers w (clock s)) s) as [r s1].
    simpl in Hok, Hs. subst r. eauto.
Qed.

Lemma process_event_skip w cv cfg host ev s :
  status ev ∉ allowed_statuses -> process_event w cv cfg host ev s = (Ok tt, s).
Proof.
  intros H. unfold process_event. rewrite bool_decide_eq_false_2 by exact H. reflexivity.
Qed.

(** ** String facts *)

Lemma ascii_list_append (a b : string) :
  list_ascii_of_string (a ++ b)%string = list_ascii_of_string a ++ list_ascii_of_string b.
Proof. induction a as [|c a IH]; simpl; [done|by rewrite IH]. Qed.

Lemma split_l_noeq sep l : sep ∉ l -> split_l sep l = [l].
Proof.
  induction l as [|c l IH]; intros Hl; simpl; [done|].
  destruct (Ascii.eqb_spec c sep) as [->|Hc]; [destruct Hl; left|].
  rewrite IH; [done|]. intros H. apply Hl. by right.
Qed.

Lemma split_l_app sep l1 l2 :
  sep ∉ l1 -> split_l sep (l1 ++ sep :: l2) = l1 :: split_l sep l2.
Proof.
  induction l1 as [|c l1 IH]; intros Hl; simpl.
  - by rewrite Ascii.eqb_refl.
  - destruct (Ascii.eqb_spec c sep) as [->|Hc]; [destruct Hl; left|].
    rewrite IH; [done|]. intros H. apply Hl. by right.
Qed.

Lemma lstrip_l_spaces p l :
  Forall (fun c => is_space c = true) p -> lstrip_l (p ++ l) = lstrip_l l.
Proof. induction 1 as [|c p Hc _ IH]; simpl; [done|]. by rewrite Hc. Qed.

Lemma lstrip_l_app_spaces l q :
  Forall (fun c => is_space c = true) q ->
  (lstrip_l l = [] /\ lstrip_l (l ++ q) = []) \/ lstrip_l (l ++ q) = lstrip_l l ++ q.
Proof.
  intros Hq. induction l as [|c l IH]; simpl.
  - left. split; [done|]. rewrite <- (app_nil_r q), lstrip_l_spaces by exact Hq. done.
  - destruct (is_space c); [exact IH|right; reflexivity].
Qed.

Lemma strip_surrounding (pre out post : string) :
  Forall (fun c => is_space c = true) (list_ascii_of_string pre) ->
  Forall (fun c => is_space c = true) (list_ascii_of_string post) ->
  strip (pre ++ out ++ post)%string = strip out.
Proof.
  intros Hpre Hpost. unfold strip. rewrite !ascii_list_append, lstrip_l_spaces by exact Hpre.
  f_equal.
  destruct (lstrip_l_app_spaces (list_ascii_of_string out) _ Hpost) as [[E1 E2]|E].
  - by rewrite E1, E2.
  - rewrite E, rev_app_distr, lstrip_l_spaces; [done|]. by apply Forall_rev.
Qed.

Lemma eq_sign_string : list_ascii_of_string "=" = [eq_sign].
Proof. reflexivity. Qed.

Lemma lstrip_l_app_nonspace l x q :
  is_space x = false -> lstrip_l (l ++ x :: q) = lstrip_l l ++ x :: q.
Proof.
  intros Hx. induction l as [|c l IH]; simpl; [by rewrite Hx|].
  destruct (is_space c); [exact IH|reflexivity].
Qed.

Lemma lstrip_l_suffix l : exists p, l = p ++ lstrip_l l.
Proof.
  induction l as [|c l [p Hp]]; simpl; [by exists []|].
  destruct (is_space c); [exists (c :: p); simpl; by rewrite <- Hp|by exists []].
Qed.

(** A discovery file holding a name, [=] and nothing after it but white
    space gives the key [""]. *)
Lemma discovery_empty_value (name post : string) :
  eq_sign ∉ list_ascii_of_string name ->
  Forall (fun ch => is_space ch = true) (list_ascii_of_string post) ->
  discovery_of (Ok (name ++ "=" ++ post)%string) = Ok (Some "").
Proof.
  intros Hn Hp. unfold discovery_of, sdk_info_of. cbv zeta.
  assert (Hs : strip (name ++ "=" ++ post)%string =
               string_of_list_ascii (lstrip_l (list_ascii_of_string name) ++ [eq_sign])).
  { unfold strip. rewrite !ascii_list_append, eq_sign_string. cbn [app].
    rewrite lstrip_l_app_nonspace by reflexivity.
    rewrite rev_app_distr. cbn [rev]. rewrite <- app_assoc. cbn [app].
    rewrite lstrip_l_spaces by (apply Forall_rev; exact Hp).
    change (lstrip_l (eq_sign :: rev (lstrip_l (list_ascii_of_string name))))
      with (eq_sign :: rev (lstrip_l (list_ascii_of_string name))).
    cbn [rev]. by rewrite rev_involutive. }
  rewrite Hs.
  destruct (lstrip_l_suffix (list_ascii_of_string name)) as [p0 Hp0].
  assert (HL : eq_sign ∉ lstrip_l (list_ascii_of_string name)).
  { intros Hin. apply Hn. rewrite Hp0. apply elem_of_app. right. exact Hin. }
  clear Hs Hp0. revert HL. generalize (lstrip_l (list_ascii_of_string name)) as L.
  intros L HL.
  assert (Hne : String.eqb (string_of_list_ascii (L ++ [eq_sign])) "" = false)
    by (destruct L; reflexivity).
  rewrite Hne. unfold sdk_ikey_of, str_split.
  rewrite list_ascii_of_string_of_list_ascii, split_l_app by exact HL. reflexivity.
Qed.

(** ** The stats cycle *)

Lemma run_tasks_stats_state w cfg t0 xs s :
  let s' := snd (fst (run_tasks t0 (get_stats_task w cfg) xs s)) in
  containers_state s' = containers_state s /\ my_container_id s' = my_container_id s /\
  sent s' = sent s.
Proof.
  revert s. induction xs as [|x xs IH]; intros s; simpl; [auto|].
  assert (E : snd (get_stats_task w cfg x (set_clock t0 s)) = set_clock t0 s).
  { unfold get_stats_task, bind, lift_res, ret. destruct (get_stats w x _); reflexivity. }
  destruct (get_stats_task w cfg x (set_clock t0 s)) as [r s1]. simpl in E. subst s1.
  specialize (IH (set_clock t0 s)).
  destruct (run_tasks t0 _ xs _) as [[rs s2] te]. simpl in *. exact IH.
Qed.

(** Lines 71-91, with the stats fan-out and the emission spelled out. *)
Lemma collect_stats_unfold w cv cfg s :
  collect_stats_and_send w cv cfg s =
  let s0 := match my_container_id s with
            | None => set_my_container_id (my_container_id_source cfg) s
            | Some _ => s end in
  match _update_containers_state w cfg (get_containers w (clock s0)) s0 with
  | (Raise ex, s1) => (Raise ex, s1)
  | (Ok _, s1) =>
      let '(rs, s2, tend) :=
        run_tasks (clock s1) (get_stats_task w cfg)
          (containers_without_sdk (my_container_id s1) (containers_state s1)) s1 in
      match collect_results rs with
      | Raise ex => (Raise ex, set_clock tend s2)
      | Ok css => send_metrics cv (get_host_name w) css (set_clock tend s2)
      end
  end.
Proof.
  unfold collect_stats_and_send, bind, gets, modify, ret, time_time, get_state, executor_map.
  destruct (my_container_id s); simpl;
    destruct (_update_containers_state w cfg _ _) as [[[]|ex] s1]; try reflexivity;
    destruct (run_tasks _ _ _ _) as [[rs s2] te]; destruct (collect_results rs); reflexivity.
Qed.

(** ** Failures in the fan-outs *)

Lemma run_tasks_cons_results {A B} t0 (f : A -> M B) x xs s :
  fst (fst (run_tasks t0 f (x :: xs) s)) =
  fst (f x (set_clock t0 s)) :: fst (fst (run_tasks t0 f xs (snd (f x (set_clock t0 s))))).
Proof.
  simpl. destruct (f x (set_clock t0 s)) as [r s1]. simpl.
  destruct (run_tasks t0 f xs s1) as [[rs s2] te]. reflexivity.
Qed.

Lemma run_tasks_app_results {A B} t0 (f : A -> M B) pre xs s :
  fst (fst (run_tasks t0 f (pre ++ xs) s)) =
  fst (fst (run_tasks t0 f pre s)) ++
  fst (fst (run_tasks t0 f xs (snd (fst (run_tasks t0 f pre s))))).
Proof.
  revert s. induction pre as [|x pre IH]; intros s; [reflexivity|].
  rewrite <- app_comm_cons, !run_tasks_cons_results, IH. simpl.
  destruct (f x (set_clock t0 s)) as [r s1]. simpl.
  destruct (run_tasks t0 f pre s1) as [[rs s2] te]. reflexivity.
Qed.

Lemma run_tasks_results_ok {A B} t0 (f : A -> M B) xs s :
  (forall x s0, x ∈ xs -> exists b, fst (f x s0) = Ok b) ->
  forall r, r ∈ fst (fst (run_tasks t0 f xs s)) -> exists b, r = Ok b.
Proof.
  revert s. induction xs as [|x xs IH]; intros s Hf r.
  { simpl. intros Hr. apply elem_of_nil in Hr. contradiction. }
  rewrite run_tasks_cons_results. intros Hr. apply elem_of_cons in Hr as [->|Hr].
  - apply Hf. apply list_elem_of_here.
  - eapply IH; [|exact Hr]. intros y s0 Hy. apply Hf. by apply list_elem_of_further.
Qed.

Section NoEscapeOne.
Context (w : DockerWrapper) (cfg : Config) (c : container).
Hypothesis exec_fails_as_wrapper_error_on :
  forall t e, run_command w c (sdk_cmd cfg) t = Raise e -> e = DockerWrapperError.

Lemma discovery_ok_on t : exists o, discovery_of (run_command w c (sdk_cmd cfg) t) = Ok o.
Proof.
  unfold discovery_of, sdk_info_of.
  destruct (run_command w c (sdk_cmd cfg) t) as [r|e] eqn:E; [eauto|].
  rewrite (exec_fails_as_wrapper_error_on _ _ E). eauto.
Qed.

Lemma register_ok_on n s : exists r, fst (register_attempts w cfg n c s) = Ok r.
Proof.
  revert s. induction n as [|n IH]; intros s; [simpl; eauto|].
  rewrite register_step. destruct (discovery_ok_on (clock s)) as [o ->].
  destruct o; simpl; eauto.
Qed.

Lemma update_ok_on s : exists r, fst (_update_container_state w cfg c s) = Ok r.
Proof.
  destruct (containers_state s !! Id c) as [e|] eqn:E.
  - unfold _update_container_state, bind at 1, get_state, gets. simpl. rewrite E.
    destruct (ikey e); [simpl; eauto|].
    unfold bind at 1, time_time, gets. simpl.
    destruct (Qlt_le_dec _ _); [|simpl; eauto].
    unfold bind at 1. rewrite sdk_ikey_step. destruct (discovery_ok_on (clock s)) as [o ->].
    simpl. eauto.
  - rewrite (update_new w cfg c s E). apply register_ok_on.
Qed.

End NoEscapeOne.

(** A task for a container with no entry whose discovery exec raises an
    error other than [DockerWrapperError] raises it at its first attempt. *)
Lemma update_new_raise w cfg c s e :
  containers_state s !! Id c = None ->
  (forall t, run_command w c (sdk_cmd cfg) t = Raise e) -> e <> DockerWrapperError ->
  fst (_update_container_state w cfg c s) = Raise e.
Proof.
  intros Hn Hexec He. rewrite (update_new w cfg c s Hn), register_step, Hexec.
  destruct e; solve [exfalso; apply He; reflexivity | reflexivity].
Qed.

(** The refresh fan-out raises the exception of the first raising task. *)
Lemma pass_first_raise w cfg pre c post s e :
  NoDup (map Id (pre ++ c :: post)) ->
  containers_state s !! Id c = None ->
  (forall c', c' ∈ pre -> forall t e',
     run_command w c' (sdk_cmd cfg) t = Raise e' -> e' = DockerWrapperError) ->
  (forall t, run_command w c (sdk_cmd cfg) t = Raise e) -> e <> DockerWrapperError ->
  fst (_update_containers_state w cfg (pre ++ c :: post) s) = Raise e.
Proof.
  intros Hnd Hc Hpre Hexec He.
  set (s1 := set_containers_state
               (remove_old_containers (clock s) (containers_state s) (pre ++ c :: post)) s).
  assert (Hr : collect_results
                 (fst (fst (run_tasks (clock s1) (_update_container_state w cfg)
                                      (pre ++ c :: post) s1))) = Raise e).
  { rewrite run_tasks_app_results, run_tasks_cons_results.
    set (s2 := snd (fst (run_tasks (clock s1) (_update_container_state w cfg) pre s1))).
    assert (Hn2 : containers_state (set_clock (clock s1) s2) !! Id c = None).
    { pose proof (run_tasks_keeps _ Id (framed_update w cfg) (clock s1) pre s1) as (Hk & _).
      cbn [containers_state set_clock]. unfold s2. rewrite Hk.
      - unfold s1. cbn [containers_state set_containers_state].
        rewrite remove_old_containers_lookup, Hc. reflexivity.
      - rewrite map_app in Hnd. apply NoDup_app in Hnd as (_ & Hd & _).
        intros Hin. apply (Hd _ Hin). apply list_elem_of_here. }
    rewrite (update_new_raise w cfg c _ e Hn2 Hexec He).
    apply collect_results_first_raise.
    apply run_tasks_results_ok. intros x s0 Hx. apply update_ok_on, Hpre, Hx. }
  rewrite update_containers_state_unfold. cbv zeta. fold s1.
  destruct (run_tasks _ _ _ _) as [[rs s3] te]. simpl in *. rewrite Hr. reflexivity.
Qed.

Lemma for_ok {A} (xs : list A) (body : A -> M unit) s :
  (forall x s0, fst (body x s0) = Ok tt) -> fst (for_ xs body s) = Ok tt.
Proof.
  intros Hb. revert s. induction xs as [|x xs IH]; intros s; simpl; [done|].
  unfold bind. specialize (Hb x s).
  destruct (body x s) as [[[]|ex] s1]; simpl in *; [apply IH|discriminate].
Qed.

Lemma send_metrics_ok cv host css s : fst (send_metrics cv host css s) = Ok tt.
Proof.
  unfold send_metrics. apply for_ok. intros [c st] s0. simpl.
  apply for_ok. intros m s1. reflexivity.
Qed.

(** A stats cycle that raises, in the refresh or in the stats fan-out,
    has sent nothing. *)
Lemma stats_cycle_raise_sent w cv cfg s ex :
  fst (collect_stats_and_send w cv cfg s) = Raise ex ->
  sent (snd (collect_stats_and_send w cv cfg s)) = sent s.
Proof.
  rewrite collect_stats_unfold. cbv zeta.
  assert (Hs0 : sent (match my_container_id s with
                      | None => set_my_container_id (my_container_id_source cfg) s
                      | Some _ => s end) = sent s)
    by (destruct (my_container_id s); reflexivity).
  revert Hs0.
  generalize (match my_container_id s with
              | None => set_my_container_id (my_container_id_source cfg) s
              | Some _ => s end) as s0.
  intros s0 Hs0.
  pose proof (pass_sent w cfg (get_containers w (clock s0)) s0) as Hp.
  destruct (_update_containers_state w cfg (get_containers w (clock s0)) s0)
    as [[[]|ex1] s1]; simpl in Hp.
  - pose proof (run_tasks_stats_state w cfg (clock s1) (containers_without_sdk
      (my_container_id s1) (containers_state s1)) s1) as (_ & _ & Hst).
    destruct (run_tasks _ _ _ _) as [[rs s2] te]. simpl in Hst.
    destruct (collect_results rs) as [css|ex2].
    + rewrite send_metrics_ok. discriminate.
    + intros _. simpl. congruence.
  - intros _. simpl. congruence.
Qed.

Ltac decide_strings :=
  repeat first [rewrite decide_True by reflexivity | rewrite decide_False by discriminate].

Section Claims.
Context (w : DockerWrapper) (cv : Convertors) (cfg : Config).

(** C1 (grace-period eviction): in a refresh pass started at time [t], the
    eviction step leaves a listed id untouched; an unlisted cached id is
    marked with [unregistered = t] when it was unmarked, keeps its entry when
    marked less than 60 s before [t], and loses it when marked more than
    60 s before [t]; the rest of the pass does not change unlisted ids. *)
Theorem refresh_grace_period (containers : list container) (s : St) (k : string) :
  (k ∈ map Id containers ->
   remove_old_containers (clock s) (containers_state s) containers !! k =
   containers_state s !! k) /\
  (k ∉ map Id containers -> forall e, containers_state s !! k = Some e ->
   let s' := snd (_update_containers_state w cfg containers s) in
   (unregistered e = None ->
      containers_state s' !! k = Some (set_unregistered (clock s) e)) /\
   (forall u, unregistered e = Some u -> (clock s - u < 60)%Q ->
      containers_state s' !! k = Some e) /\
   (forall u, unregistered e = Some u -> (60 < clock s - u)%Q ->
      containers_state s' !! k = None)).
Proof.
  split.
  - intros Hk. rewrite remove_old_containers_lookup.
    destruct (containers_state s !! k); simpl; [|done].
    rewrite decide_True by done. done.
  - intros Hk e He s'. subst s'.
    rewrite (pass_unlisted w cfg containers s k Hk), remove_old_containers_lookup, He.
    simpl. rewrite decide_False by done.
    split; [intros ->; done|]. split.
    + intros u -> Hu. destruct (Qlt_le_dec u (clock s - 60)); [lra|done].
    + intros u -> Hu. destruct (Qlt_le_dec u (clock s - 60)); [done|lra].
Qed.

(** C2 (resolution monotonicity): once the entry of id [i] has a key [k],
    a state update of a container with id [i] returns [k] and changes
    nothing, and a refresh pass never execs into [i]'s container for
    discovery and never changes the key: afterwards [i] either has no
    entry (evicted) or an entry whose key is still [k]; if [i] is listed
    its entry is untouched. *)
Theorem resolution_monotonic (containers : list container) (s : St) (i : string)
    (e : entry) (k : string) :
  containers_state s !! i = Some e -> ikey e = Some k ->
  (forall c, Id c = i -> _update_container_state w cfg c s = (Ok (Some k), s)) /\
  (let s' := snd (_update_containers_state w cfg containers s) in
   (exists l, exec_log s' = l ++ exec_log s /\ i ∉ l) /\
   (containers_state s' !! i = None \/
    exists e', containers_state s' !! i = Some e' /\ ikey e' = Some k) /\
   (i ∈ map Id containers -> containers_state s' !! i = Some e)).
Proof.
  intros He Hk. split.
  - intros c <-. exact (update_known w cfg c s e k He Hk).
  - exact (known_key_pass w cfg containers s i e k He Hk).
Qed.

(** C4 (retry bound): in a pass where ids are distinct, a container with
    no entry gets at most 5 discovery execs, exactly 5 when discovery never
    yields a key (its entry is then stored keyless); a keyless entry
    registered more than 60 s before the pass starts gets no exec at all.
    The task of a new container sleeps one second after each failed
    attempt and returns at once when the first attempt finds a key. *)
Theorem retry_bound (containers : list container) (s : St) :
  (forall c, NoDup (map Id containers) -> c ∈ containers ->
   containers_state s !! Id c = None ->
   let s' := snd (_update_containers_state w cfg containers s) in
   (exists l, exec_log s' = l ++ exec_log s /\ count_occ string_dec l (Id c) <= 5) /\
   ((forall x t, Id x = Id c -> discovery_of (run_command w x (sdk_cmd cfg) t) = Ok None) ->
    (exists l, exec_log s' = l ++ exec_log s /\ count_occ string_dec l (Id c) = 5) /\
    exists e, containers_state s' !! Id c = Some e /\ ikey e = None)) /\
  (forall i e, containers_state s !! i = Some e -> ikey e = None ->
   (registered e < clock s - 60)%Q ->
   exists l, exec_log (snd (_update_containers_state w cfg containers s)) = l ++ exec_log s /\
             i ∉ l) /\
  (forall c s0, containers_state s0 !! Id c = None ->
   ((forall t, discovery_of (run_command w c (sdk_cmd cfg) t) = Ok None) ->
    fst (_update_container_state w cfg c s0) = Ok None /\
    exec_log (snd (_update_container_state w cfg c s0)) = repeat (Id c) 5 ++ exec_log s0 /\
    (clock (snd (_update_container_state w cfg c s0)) == clock s0 + 5)%Q) /\
   (forall k, discovery_of (run_command w c (sdk_cmd cfg) (clock s0)) = Ok (Some k) ->
    fst (_update_container_state w cfg c s0) = Ok (Some k) /\
    exec_log (snd (_update_container_state w cfg c s0)) = Id c :: exec_log s0)).
Proof.
  split; [|split].
  - intros c Hnd Hc Hnew s'. subst s'.
    destruct (pass_from_evicted w cfg containers s) as [Ecs Elog]. rewrite Ecs, Elog.
    assert (H1 : containers_state (set_containers_state
               (remove_old_containers (clock s) (containers_state s) containers) s) !! Id c = None).
    { simpl. rewrite remove_old_containers_lookup, Hnew. done. }
    destruct (run_tasks_nodup_split w cfg (Id c) (clock s) containers
      (set_containers_state (remove_old_containers (clock s) (containers_state s) containers) s)
      Hnd (elem_of_map_Id c _ Hc))
      as (x & s0 & Hxin & Hx & Hc0 & Hl0 & (l0 & El0 & Nl0) & Hfin & (l1 & El1 & Nl1)).
    rewrite H1 in Hl0. rewrite <- Hx in Hl0.
    rewrite (update_new w cfg x s0 Hl0) in Hfin, El1.
    simpl in El0. split.
    + destruct (register_attempts_bound w cfg 5 x s0) as (lr & Elr & Llr & Flr).
      exists (l1 ++ lr ++ l0). rewrite El1, Elr, El0, !app_assoc. split; [reflexivity|].
      rewrite !count_occ_app, (count_occ_absent _ l1 Nl1), (count_occ_absent _ l0 Nl0).
      pose proof (count_occ_bound string_dec (Id c) lr). lia.
    + intros Hnever.
      destruct (register_attempts_never w cfg 5 x s0 (fun t => Hnever x t Hx))
        as (R & Elr & Ec & Ee).
      split.
      * exists (l1 ++ repeat (Id x) 5 ++ l0). rewrite El1, Elr, El0, !app_assoc.
        split; [reflexivity|].
        rewrite !count_occ_app, (count_occ_absent _ l1 Nl1), (count_occ_absent _ l0 Nl0).
        rewrite count_occ_repeat_eq by (symmetry; exact Hx). reflexivity.
      * rewrite Hfin. rewrite <- Hx. apply Ee. done.
  - intros i e He Hk Hr.
    destruct (pass_from_evicted w cfg containers s) as [Ecs Elog]. rewrite Elog.
    destruct (decide (i ∈ map Id containers)) as [Hin|Hout].
    + assert (H1 : containers_state (set_containers_state
                 (remove_old_containers (clock s) (containers_state s) containers) s) !! i = Some e).
      { simpl. rewrite remove_old_containers_lookup, He. simpl.
        rewrite decide_True by done. done. }
      destruct (run_tasks_noexec w cfg i (fun o => o = Some e) (clock s) containers
        (set_containers_state (remove_old_containers (clock s) (containers_state s) containers) s) H1)
        as (l & El & Nl).
      * intros x s0 Hx Hc H0. subst i.
        rewrite (update_stale w cfg x s0 e H0 Hk) by (rewrite Hc; exact Hr). simpl.
        split; [exact H0|]. exists []. split; [done|set_solver].
      * exists l. split; [exact El|exact Nl].
    + pose proof (run_tasks_keeps _ Id (framed_update w cfg) (clock s) containers
        (set_containers_state (remove_old_containers (clock s) (containers_state s) containers) s))
        as (_ & (l & El & Fl) & _).
      exists l. split; [exact El|]. intros Hl. apply Hout, Fl, Hl.
  - intros c s0 Hnew. rewrite (update_new w cfg c s0 Hnew). split.
    + intros Hnever.
      destruct (register_attempts_never w cfg 5 c s0 Hnever) as (R & Elr & Ec & _).
      split; [exact R|]. split; [exact Elr|]. exact Ec.
    + intros k Hk. rewrite register_step, Hk. split; reflexivity.
Qed.

(** C5 (amended): a listed id keeps its [unregistered] mark as long as its
    entry lives: if it has an entry when the pass starts, it still has one
    after it, with the same mark; if it has none (its entry was evicted),
    any entry the pass creates for it is unmarked. *)
Theorem reappearance_keeps_mark (containers : list container) (s : St) (i : string) :
  i ∈ map Id containers ->
  let s' := snd (_update_containers_state w cfg containers s) in
  (forall e, containers_state s !! i = Some e ->
   exists e', containers_state s' !! i = Some e' /\ unregistered e' = unregistered e) /\
  (containers_state s !! i = None ->
   forall e', containers_state s' !! i = Some e' -> unregistered e' = None).
Proof.
  intros Hin s'. subst s'.
  destruct (pass_from_evicted w cfg containers s) as [Ecs _]. rewrite Ecs.
  split.
  - intros e He.
    apply (run_tasks_inv w cfg i
             (fun o => exists e', o = Some e' /\ unregistered e' = unregistered e)).
    + simpl. rewrite remove_old_containers_lookup, He. simpl.
      rewrite decide_True by done. eexists; split; reflexivity.
    + intros x s0 Hx _ (e0 & H0 & U0). subst i.
      destruct (update_existing w cfg x s0 e0 H0) as (e' & H' & U').
      exists e'. split; [exact H'|congruence].
  - intros He.
    apply (run_tasks_inv w cfg i
             (fun o => forall e', o = Some e' -> unregistered e' = None)).
    + simpl. rewrite remove_old_containers_lookup, He. simpl. discriminate.
    + intros x s0 Hx _ H0. subst i.
      destruct (containers_state s0 !! Id x) as [e0|] eqn:E0.
      * destruct (update_existing w cfg x s0 e0 E0) as (e' & H' & U').
        rewrite H'. intros e'' [= <-]. rewrite U'. apply H0. reflexivity.
      * rewrite (update_new w cfg x s0 E0).
        apply register_unregistered_none. rewrite E0. discriminate.
Qed.

(** C3 (amended): the fan-outs do not isolate failures. The stats fan-out
    returns each container paired with its samples, in input order; when a
    container's [get_stats] raises and every earlier one returned, the
    batch call raises that exception, and a stats cycle that raises has
    sent nothing. The refresh fan-out likewise raises the exception of a
    new container whose discovery exec raises an error other than
    [DockerWrapperError] when every earlier task returned. Only the refresh
    operation isolates failures: it turns [DockerWrapperError] into an
    absent key, so when the exec fails only that way the refresh fan-out
    never raises. *)
Theorem fan_out_first_exception (containers : list container) (s : St) :
  fst (executor_map (get_stats_task w cfg) containers s) =
    collect_results
      (map (fun c => match get_stats w c (samples_in_each_metric cfg) with
                     | Ok st => Ok (c, st) | Raise e => Raise e end) containers) /\
  (forall pre c post e,
     containers = pre ++ c :: post ->
     (forall c', c' ∈ pre -> exists st, get_stats w c' (samples_in_each_metric cfg) = Ok st) ->
     get_stats w c (samples_in_each_metric cfg) = Raise e ->
     fst (executor_map (get_stats_task w cfg) containers s) = Raise e) /\
  (forall s0 ex, fst (collect_stats_and_send w cv cfg s0) = Raise ex ->
     sent (snd (collect_stats_and_send w cv cfg s0)) = sent s0) /\
  (forall pre c post e,
     containers = pre ++ c :: post -> NoDup (map Id containers) ->
     containers_state s !! Id c = None ->
     (forall c', c' ∈ pre -> forall t e',
        run_command w c' (sdk_cmd cfg) t = Raise e' -> e' = DockerWrapperError) ->
     (forall t, run_command w c (sdk_cmd cfg) t = Raise e) -> e <> DockerWrapperError ->
     fst (_update_containers_state w cfg containers s) = Raise e) /\
  ((forall c cmd t e, run_command w c cmd t = Raise e -> e = DockerWrapperError) ->
   fst (_update_containers_state w cfg containers s) = Ok tt).
Proof.
  assert (Hmap : fst (executor_map (get_stats_task w cfg) containers s) =
    collect_results
      (map (fun c => match get_stats w c (samples_in_each_metric cfg) with
                     | Ok st => Ok (c, st) | Raise e => Raise e end) containers)).
  { unfold executor_map. pose proof (run_tasks_stats w cfg (clock s) containers s) as H.
    destruct (run_tasks _ _ _ _) as [[rs s2] te]. simpl in *. by rewrite H. }
  split; [exact Hmap|split; [|split; [|split]]].
  - intros pre c post e -> Hpre Hc. rewrite Hmap, map_app. simpl. rewrite Hc.
    apply collect_results_first_raise.
    intros r Hr. apply list_elem_of_In, in_map_iff in Hr as (c' & <- & Hc').
    apply list_elem_of_In in Hc'. destruct (Hpre c' Hc') as [st ->]. eauto.
  - intros s0 ex. apply stats_cycle_raise_sent.
  - intros pre c post e -> Hnd Hc Hpre Hexec He.
    exact (pass_first_raise w cfg pre c post s e Hnd Hc Hpre Hexec He).
  - intros Hexec. apply pass_ok. exact Hexec.
Qed.

(** C7 (stats sample filtering): the emission step of the stats cycle
    sends, for every (container, samples) result in order, nothing when
    there is at most one sample, and otherwise one
    [{'metric': m, 'properties': P}] per metric [m] of the conversion
    output, unmodified and in order, [P] being the container's property
    map; it never raises and changes nothing else. *)
Theorem stats_emission (host_name : string) (container_stats : list (container * list string))
    (s : St) :
  send_metrics cv host_name container_stats s =
  (Ok tt,
   add_sents
     (flat_map (fun cs =>
        if Nat.leb (length cs.2) 1 then []
        else map (fun metric => MetricEvent metric (get_container_properties cv cs.1 host_name))
                 (convert_to_metrics cv cs.2))
        container_stats) s).
Proof.
  unfold send_metrics. revert s.
  induction container_stats as [|[c stats] rest IH]; intros s; simpl.
  - by rewrite add_sents_nil.
  - destruct (Nat.ltb 1 (length stats)) eqn:Hlt.
    + apply Nat.ltb_lt in Hlt. assert (Nat.leb (length stats) 1 = false) as -> by
        (apply Nat.leb_gt; lia).
      simpl. unfold bind.
      rewrite (for_sends _ (fun metric => [MetricEvent metric (get_container_properties cv c host_name)])
                 _ s (fun _ _ => eq_refl)).
      rewrite IH, add_sents_app.
      assert (Hfm : forall (g : string -> sent_event) l, flat_map (fun m => [g m]) l = map g l).
      { intros g l. induction l as [|m l IHl]; simpl; congruence. }
      rewrite Hfm. reflexivity.
    + apply Nat.ltb_ge in Hlt. assert (Nat.leb (length stats) 1 = true) as -> by
        (apply Nat.leb_le; lia).
      simpl. apply IH.
Qed.

(** C8 (event status filtering): an event whose status is not one of
    start, stop, die, restart, pause, unpause is skipped without any
    effect, so the loop behaves as on the stream without such events; a
    start event (its inspection giving a container id and the collector's
    exec failing only with [DockerWrapperError]) sends exactly one event,
    named [docker-container-start], without finish time, exit code, error
    or duration keys unless the inspection's property map had them. *)
Theorem event_status_filter (host_name : string) :
  (forall ev s, status ev ∉ allowed_statuses -> process_event w cv cfg host_name ev s = (Ok tt, s)) /\
  (forall evs s, event_loop w cv cfg host_name evs s =
     event_loop w cv cfg host_name
       (List.filter (fun ev => bool_decide (status ev ∈ allowed_statuses)) evs) s) /\
  (forall ev s,
   status ev = "start" ->
   (forall c cmd t e, run_command w c cmd t = Raise e -> e = DockerWrapperError) ->
   is_Some (get_container_properties_from_inspect cv (get_inspection w ev) host_name
              !! "Docker container id") ->
   (forall k, k ∈ terminal_keys ->
      get_container_properties_from_inspect cv (get_inspection w ev) host_name !! k = None) ->
   exists s' key p,
     process_event w cv cfg host_name ev s = (Ok tt, s') /\
     sent s' = sent s ++ [ContainerEvent "docker-container-start" key p] /\
     forall k, k ∈ terminal_keys -> p !! k = None).
Proof.
  split; [|split].
  - intros ev s. apply process_event_skip.
  - intros evs. induction evs as [|ev evs IH]; intros s; [done|]. simpl.
    destruct (decide (status ev ∈ allowed_statuses)) as [Ha|Ha].
    + rewrite bool_decide_eq_true_2 by exact Ha. simpl. unfold event_loop in *. simpl. unfold bind.
      destruct (process_event w cv cfg host_name ev s) as [[[]|e] s'];
        [apply IH|reflexivity].
    + rewrite bool_decide_eq_false_2 by exact Ha. unfold event_loop in *. simpl. unfold bind.
      rewrite process_event_skip by exact Ha. apply IH.
  - intros ev s Hst Hexec [cid Hcid] Hno.
    unfold process_event. cbv zeta. rewrite Hst.
    rewrite bool_decide_eq_true_2 by apply list_elem_of_here.
    rewrite bool_decide_eq_false_2 by
      (intros Hin; apply list_elem_of_In in Hin; simpl in Hin; intuition discriminate).
    cbn [negb]. rewrite Hcid.
    destruct (ikey_for_property_ok w cfg cid s Hexec) as (r & s' & E & Hs).
    unfold bind. rewrite E. unfold send_event, modify. simpl.
    eexists _, _, _. split; [reflexivity|]. split; [simpl; rewrite Hs; reflexivity|].
    intros k Hk. pose proof (Hno k Hk) as Hk0.
    apply list_elem_of_In in Hk. simpl in Hk.
    destruct Hk as [<-|[<-|[<-|[<-|[<-|[<-|[<-|[]]]]]]]];
      unfold props in *; rewrite !lookup_insert_ne by discriminate; exact Hk0.
Qed.

(** C9 (durations): for a stop or die event whose inspection's start and
    finish times parse to [T0] and [T0 + 125] seconds, the one event sent
    carries docker-duration-seconds 125, -minutes 125/60, -hours 125/3600
    and -days 125/86400. *)
Theorem terminal_durations (host_name : string) (ev : event) (s : St) (T0 : Q) :
  status ev ∈ ["stop"; "die"] ->
  (forall c cmd t e, run_command w c cmd t = Raise e -> e = DockerWrapperError) ->
  is_Some (get_container_properties_from_inspect cv (get_inspection w ev) host_name
             !! "Docker container id") ->
  (parse_date w (StartedAt (get_inspection w ev)) == T0)%Q ->
  (parse_date w (FinishedAt (get_inspection w ev)) == T0 + 125)%Q ->
  exists s' key p,
    process_event w cv cfg host_name ev s = (Ok tt, s') /\
    sent s' = sent s ++ [ContainerEvent ("docker-container-" ++ status ev)%string key p] /\
    (exists q, p !! "docker-duration-seconds" = Some (PNum q) /\ (q == 125)%Q) /\
    (exists q, p !! "docker-duration-minutes" = Some (PNum q) /\ (q == 125 / 60)%Q) /\
    (exists q, p !! "docker-duration-hours" = Some (PNum q) /\ (q == 125 / 3600)%Q) /\
    (exists q, p !! "docker-duration-days" = Some (PNum q) /\ (q == 125 / 86400)%Q).
Proof.
  intros Hst Hexec [cid Hcid] HS HF.
  assert (Hd : (parse_date w (FinishedAt (get_inspection w ev)) -
                parse_date w (StartedAt (get_inspection w ev)) == 125)%Q) by lra.
  assert (Hstop : bool_decide (status ev ∈ ["stop"; "die"]) = true)
    by (apply bool_decide_eq_true_2; exact Hst).
  assert (Hall : bool_decide (status ev ∈ allowed_statuses) = true).
  { apply bool_decide_eq_true_2. apply list_elem_of_In in Hst. simpl in Hst.
    destruct Hst as [<-|[<-|[]]]; apply list_elem_of_In; simpl; tauto. }
  unfold process_event. cbv zeta. rewrite Hall. cbn [negb].
  rewrite Hcid, Hstop.
  destruct (ikey_for_property_ok w cfg cid s Hexec) as (r & s' & E & Hs).
  unfold bind. rewrite E. unfold send_event, modify. simpl.
  eexists _, _, _. split; [reflexivity|]. split; [simpl; rewrite Hs; reflexivity|].
  unfold duration_props. cbv zeta. unfold props. rewrite !lookup_insert. decide_strings.
  split; [|split; [|split]]; eexists; (split; [reflexivity|]); try exact Hd;
    rewrite Hd; reflexivity.
Qed.

(** C10 (empty key): when the discovery file holds a name (without [=])
    followed by [=] and nothing else but white space, such as [ikey=] with
    the newline [cat] prints, discovery yields the key [""], which is
    present: a container with no entry gets
    it stored at its first attempt; an entry with key [""] is not among the
    containers whose stats the collector sends (unless it is the
    collector's own), and a refresh pass never execs into it again for
    discovery nor changes its key while the entry lives. *)
Theorem empty_value_key (c : container) (name post : string) :
  eq_sign ∉ list_ascii_of_string name ->
  Forall (fun ch => is_space ch = true) (list_ascii_of_string post) ->
  (forall t, run_command w c (sdk_cmd cfg) t = Ok (name ++ "=" ++ post)%string) ->
  (forall s, _get_container_sdk_ikey w cfg c s = (Ok (Some ""), add_exec (Id c) s)) /\
  (forall s, containers_state s !! Id c = None ->
     exists s', _update_container_state w cfg c s = (Ok (Some ""), s') /\
       containers_state s' !! Id c = Some (mkEntry (Some "") (clock s) None c)) /\
  (forall (my : option string) (st : gmap string entry) (e : entry),
     (forall k v, st !! k = Some v -> Id (e_container v) = k) ->
     st !! Id c = Some e -> ikey e = Some "" -> my <> Some (Id c) ->
     e_container e ∉ containers_without_sdk my st) /\
  (forall (containers : list container) (s : St) (e : entry),
     containers_state s !! Id c = Some e -> ikey e = Some "" ->
     let s' := snd (_update_containers_state w cfg containers s) in
     (exists l, exec_log s' = l ++ exec_log s /\ Id c ∉ l) /\
     (containers_state s' !! Id c = None \/
      exists e', containers_state s' !! Id c = Some e' /\ ikey e' = Some "")).
Proof.
  intros Hname Hpost Hexec. split; [|split; [|split]].
  - intros s. rewrite sdk_ikey_step, Hexec, discovery_empty_value by assumption. reflexivity.
  - intros s Hn. rewrite update_new by exact Hn.
    rewrite register_step, Hexec, discovery_empty_value by assumption.
    eexists. split; [reflexivity|]. simpl. apply lookup_insert_eq.
  - intros my st e Hwf He Hk Hmy Hin.
    unfold containers_without_sdk in Hin.
    apply list_elem_of_In, in_map_iff in Hin as [[k v] [Hv Hin]]. simpl in Hv.
    apply filter_In in Hin as [Hin Hp].
    apply list_elem_of_In, elem_of_map_to_list in Hin.
    pose proof (Hwf _ _ Hin) as Hid. simpl in Hid. rewrite Hv in Hid.
    rewrite (Hwf _ _ He) in Hid. subst k.
    rewrite He in Hin. injection Hin as <-.
    apply bool_decide_eq_true_1 in Hp. simpl in Hp.
    destruct Hp as [Hp|Hp]; congruence.
  - intros containers s e He Hk.
    destruct (known_key_pass w cfg containers s (Id c) e "" He Hk) as (Hl & Hc & _).
    split; [exact Hl|exact Hc].
Qed.

End Claims.

(** ** Concrete instances *)

Lemma resolution_monotonic_witness :
  containers_state
    (snd (_update_containers_state (demo_wrapper "ikey=other") demo_cfg [demo_container "a"]
            (demo_state {[ "a" := mkEntry (Some "k") 0 None (demo_container "a") ]} 100)))
    !! "a" = Some (mkEntry (Some "k") 0 None (demo_container "a")).
Proof.
  destruct (resolution_monotonic (demo_wrapper "ikey=other") demo_cfg [demo_container "a"]
              (demo_state {[ "a" := mkEntry (Some "k") 0 None (demo_container "a") ]} 100)
              "a" (mkEntry (Some "k") 0 None (demo_container "a")) "k")
    as [_ (_ & _ & H)]; [reflexivity|reflexivity|].
  apply H. simpl. apply list_elem_of_here.
Defined.

(** C5: an entry marked missing at time 100 is listed again at time 110;
    after that pass it is still marked with 100. *)
Lemma reappearance_counterexample :
  let e := mkEntry (Some "k") 0 None (demo_container "a") in
  let s0 := demo_state {[ "a" := e ]} 100 in
  let s1 := snd (_update_containers_state (demo_wrapper "") demo_cfg [] s0) in
  let s2 := snd (_update_containers_state (demo_wrapper "") demo_cfg [demo_container "a"]
                   (set_clock 110 s1)) in
  containers_state s1 !! "a" = Some (set_unregistered 100 e) /\
  containers_state s2 !! "a" = Some (set_unregistered 100 e).
Proof. vm_compute. split; reflexivity. Qed.

Lemma reappearance_keeps_mark_witness :
  let e := mkEntry (Some "k") 0 (Some 100%Q) (demo_container "a") in
  exists e', containers_state
     (snd (_update_containers_state (demo_wrapper "") demo_cfg [demo_container "a"]
             (demo_state {[ "a" := e ]} 110))) !! "a" = Some e' /\
   unregistered e' = Some 100%Q.
Proof.
  intros e.
  destruct (reappearance_keeps_mark (demo_wrapper "") demo_cfg [demo_container "a"]
              (demo_state {[ "a" := e ]} 110) "a") as [H _].
  { simpl. apply list_elem_of_here. }
  apply (H e). reflexivity.
Defined.

(** C3: of two containers without a key, the second one's [get_stats]
    raises; the stats cycle raises that exception and sends nothing, also
    not the first container's metrics. *)
Lemma fan_out_counterexample :
  let wr := mkWrapper "host" (fun _ => [demo_container "a"; demo_container "b"])
              (fun _ _ _ => Ok "")
              (fun c _ => if String.eqb (Id c) "b" then Raise (OtherError "APIError")
                          else Ok ["s1"; "s2"; "s3"])
              [] (fun _ => demo_inspection) (fun _ => 0%Q) in
  let r := collect_stats_and_send wr demo_convertors demo_cfg (demo_state ∅ 0) in
  fst r = Raise (OtherError "APIError") /\ sent (snd r) = [].
Proof. vm_compute. split; reflexivity. Qed.

(** C6: the discovery file holds [ikey=a=b]; the key found is [a], the
    piece between the first and the second [=]. *)
Lemma sdk_ikey_value_with_equals :
  fst (_get_container_sdk_ikey (demo_wrapper "ikey=a=b") demo_cfg (demo_container "a")
         (demo_state ∅ 0)) = Ok (Some "a").
Proof. vm_compute. reflexivity. Qed.

(** C8: a start event of the demo environment sends one event without
    the keys of a stop or die event. *)
Lemma event_status_filter_witness :
  exists s' key p,
    process_event (demo_wrapper "ikey=k") demo_convertors demo_cfg "host"
      (mkEvent "start" "a") (demo_state ∅ 0) = (Ok tt, s') /\
    sent s' = [ContainerEvent "docker-container-start" key p] /\
    forall k, k ∈ terminal_keys -> p !! k = None.
Proof.
  destruct (event_status_filter (demo_wrapper "ikey=k") demo_convertors demo_cfg "host")
    as (_ & _ & H).
  apply (H (mkEvent "start" "a") (demo_state ∅ 0)).
  - reflexivity.
  - intros c cmd t e Hr. discriminate Hr.
  - exists (PStr "a"). reflexivity.
  - intros k Hk. apply list_elem_of_In in Hk. simpl in Hk.
    destruct Hk as [<-|[<-|[<-|[<-|[<-|[<-|[<-|[]]]]]]]]; reflexivity.
Defined.

(** C9: a die event whose container ran from 0 s to 125 s. *)
Lemma terminal_durations_witness :
  exists s' key p,
    process_event (demo_timed_wrapper "ikey=k" []) demo_convertors demo_cfg "host"
      (mkEvent "die" "a") (demo_state ∅ 0) = (Ok tt, s') /\
    sent s' = [ContainerEvent "docker-container-die" key p] /\
    (exists q, p !! "docker-duration-seconds" = Some (PNum q) /\ (q == 125)%Q) /\
    (exists q, p !! "docker-duration-minutes" = Some (PNum q) /\ (q == 125 / 60)%Q) /\
    (exists q, p !! "docker-duration-hours" = Some (PNum q) /\ (q == 125 / 3600)%Q) /\
    (exists q, p !! "docker-duration-days" = Some (PNum q) /\ (q == 125 / 86400)%Q).
Proof.
  apply (terminal_durations (demo_timed_wrapper "ikey=k" []) demo_convertors demo_cfg "host"
           (mkEvent "die" "a") (demo_state ∅ 0) 0).
  - simpl. apply list_elem_of_further, list_elem_of_here.
  - intros c cmd t e Hr. discriminate Hr.
  - exists (PStr "a"). reflexivity.
  - vm_compute. reflexivity.
  - vm_compute. reflexivity.
Defined.

(** C10: a new container whose discovery file holds [InstrumentationKey=]
    and a newline is stored with the key [""] at its first attempt. *)
Lemma empty_value_key_witness :
  exists s', _update_container_state
               (demo_wrapper ("InstrumentationKey=" ++ String (ascii_of_nat 10) "")%string)
               demo_cfg (demo_container "a") (demo_state ∅ 7) = (Ok (Some ""), s') /\
             containers_state s' !! "a" = Some (mkEntry (Some "") 7 None (demo_container "a")).
Proof.
  destruct (empty_value_key
              (demo_wrapper ("InstrumentationKey=" ++ String (ascii_of_nat 10) "")%string)
              demo_cfg (demo_container "a") "InstrumentationKey" (String (ascii_of_nat 10) ""))
    as (_ & H & _).
  - rewrite list_elem_of_In. vm_compute. intuition discriminate.
  - repeat constructor.
  - intros t. reflexivity.
  - apply (H (demo_state ∅ 7)). reflexivity.
Defined.

(** C3: the refresh fan-out over [a; b; c], where the exec fails with
    [DockerWrapperError] in [a] and with another error in [b], raises the
    error of [b]. *)
Lemma fan_out_first_exception_witness :
  let wr := mkWrapper "host" (fun _ => [])
              (fun c _ _ => if String.eqb (Id c) "b" then Raise (OtherError "exec")
                            else Raise DockerWrapperError)
              (fun _ _ => Ok []) [] (fun _ => demo_inspection) (fun _ => 0%Q) in
  fst (_update_containers_state wr demo_cfg
         [demo_container "a"; demo_container "b"; demo_container "c"] (demo_state ∅ 0)) =
  Raise (OtherError "exec").
Proof.
  intros wr.
  destruct (fan_out_first_exception wr demo_convertors demo_cfg
              [demo_container "a"; demo_container "b"; demo_container "c"] (demo_state ∅ 0))
    as (_ & _ & _ & H & _).
  apply (H [demo_container "a"] (demo_container "b") [demo_container "c"]).
  - reflexivity.
  - simpl. repeat constructor; rewrite list_elem_of_In; simpl; intuition discriminate.
  - reflexivity.
  - intros c' Hc' t e' Hr. apply list_elem_of_singleton in Hc'. subst c'.
    simpl in Hr. injection Hr as <-. reflexivity.
  - intros t. reflexivity.
  - discriminate.
Defined.

(** * Further properties of the collector *)

(** ** Parsing the discovery file *)

(** [_get_container_sdk_ikey] on a [name=value] line: when neither the
    name nor the value contains [=], the key is the value, whatever
    follows a second [=]. *)
Theorem sdk_ikey_first_segment (name value rest : string) :
  eq_sign ∉ list_ascii_of_string name -> eq_sign ∉ list_ascii_of_string value ->
  sdk_ikey_of (Some (name ++ "=" ++ value)%string) = Some value /\
  sdk_ikey_of (Some (name ++ "=" ++ value ++ "=" ++ rest)%string) = Some value.
Proof.
  intros Hn Hv. unfold sdk_ikey_of, str_split. rewrite !ascii_list_append, !eq_sign_string.
  cbn [app]. rewrite !split_l_app by assumption. rewrite split_l_noeq by assumption.
  simpl. rewrite string_of_list_ascii_of_string. split; reflexivity.
Qed.

(** [_get_container_sdk_ikey]: a discovery file content without [=]
    (the [len(splits) < 2] case) gives no key. *)
Theorem sdk_ikey_without_eq (content : string) :
  eq_sign ∉ list_ascii_of_string content -> sdk_ikey_of (Some content) = None.
Proof.
  intros H. unfold sdk_ikey_of, str_split. rewrite split_l_noeq by exact H. reflexivity.
Qed.

(** [_get_container_sdk_info] strips the exec output: white space around
    the file content (such as the newline [cat] prints) changes nothing. *)
Theorem discovery_strips_output (pre out post : string) :
  Forall (fun c => is_space c = true) (list_ascii_of_string pre) ->
  Forall (fun c => is_space c = true) (list_ascii_of_string post) ->
  discovery_of (Ok (pre ++ out ++ post)%string) = discovery_of (Ok out).
Proof.
  intros Hpre Hpost. unfold discovery_of, sdk_info_of. by rewrite strip_surrounding.
Qed.

(** ** The refresh pass *)

Section PassFacts.
Context (w : DockerWrapper) (cfg : Config).

Abbreviation upd := (_update_container_state w cfg).
Abbreviation pass := (_update_containers_state w cfg).

Lemma register_entry_container n c s k e :
  containers_state (snd (register_attempts w cfg n c s)) !! k = Some e ->
  containers_state s !! k = Some e \/ (k = Id c /\ e_container e = c).
Proof.
  revert s. induction n as [|n IH]; intros s; [simpl; auto|].
  rewrite register_step.
  destruct (discovery_of _) as [[ikey|]|ex]; simpl; [| |auto].
  - rewrite lookup_insert. case_decide as Hk.
    + intros [= <-]. right. auto.
    + auto.
  - intros H. destruct (IH _ H) as [H1|H1]; [|auto]. simpl in H1.
    revert H1. rewrite lookup_insert. case_decide as Hk.
    + intros [= <-]. right. auto.
    + auto.
Qed.

Lemma update_entry_container c s k e :
  containers_state (snd (upd c s)) !! k = Some e ->
  (exists e0, containers_state s !! k = Some e0 /\ e_container e = e_container e0) \/
  (k = Id c /\ e_container e = c).
Proof.
  destruct (containers_state s !! Id c) as [st|] eqn:E.
  - unfold _update_container_state, bind at 1, get_state, gets. simpl. rewrite E.
    destruct (ikey st) as [key|]; [simpl; eauto|].
    unfold bind at 1, time_time, gets. simpl.
    destruct (Qlt_le_dec _ _); [|simpl; eauto].
    unfold bind at 1. rewrite sdk_ikey_step.
    destruct (discovery_of _) as [ikey|ex]; simpl; [|eauto].
    rewrite lookup_insert. case_decide as Hk; [|eauto].
    intros [= <-]. left. exists st. subst k. split; [exact E|reflexivity].
  - rewrite (update_new w cfg c s E). intros H.
    destruct (register_entry_container 5 c s k e H); eauto.
Qed.

Lemma run_tasks_entries_match t0 xs s :
  (forall k e, containers_state s !! k = Some e -> Id (e_container e) = k) ->
  forall k e, containers_state (snd (fst (run_tasks t0 upd xs s))) !! k = Some e ->
              Id (e_container e) = k.
Proof.
  revert s. induction xs as [|x xs IH]; intros s Hs; simpl; [exact Hs|].
  destruct (upd x (set_clock t0 s)) as [r s1] eqn:E1.
  destruct (run_tasks t0 upd xs s1) as [[rs s2] te] eqn:E2. simpl.
  pose proof (IH s1) as IH1. rewrite E2 in IH1. apply IH1.
  intros k e He. pose proof (update_entry_container x (set_clock t0 s) k e) as H.
  rewrite E1 in H. destruct (H He) as [(e0 & H0 & Hc)|[-> ->]]; [|done].
  rewrite Hc. exact (Hs k e0 H0).
Qed.

Lemma register_keeps_present n c s k :
  is_Some (containers_state s !! k) ->
  is_Some (containers_state (snd (register_attempts w cfg n c s)) !! k).
Proof.
  revert s. induction n as [|n IH]; intros s Hs; [exact Hs|].
  rewrite register_step.
  destruct (discovery_of _) as [[ikey|]|ex]; simpl; [| |exact Hs].
  - rewrite lookup_insert. case_decide; [eauto|exact Hs].
  - apply IH. simpl. rewrite lookup_insert. case_decide; [eauto|exact Hs].
Qed.

Lemma update_keeps_present c s k :
  is_Some (containers_state s !! k) -> is_Some (containers_state (snd (upd c s)) !! k).
Proof.
  intros Hs. destruct (decide (k = Id c)) as [->|Hk].
  - destruct Hs as [e He]. destruct (update_existing w cfg c s e He) as (e' & He' & _). eauto.
  - pose proof (framed_update w cfg c s) as (Hf & _). rewrite Hf; [exact Hs|].
    intros Hin. apply list_elem_of_singleton in Hin. auto.
Qed.

Lemma update_ok_present c s b :
  fst (upd c s) = Ok b -> is_Some (containers_state (snd (upd c s)) !! Id c).
Proof.
  intros Hok. destruct (containers_state s !! Id c) as [e|] eqn:E.
  - destruct (update_existing w cfg c s e E) as (e' & He' & _). eauto.
  - rewrite (update_new w cfg c s E) in *. revert Hok. rewrite register_step.
    destruct (discovery_of _) as [[ikey|]|ex]; cbv beta iota zeta; cbn [fst snd];
      [| |discriminate].
    + intros _. cbn [containers_state set_containers_state]. rewrite lookup_insert_eq. eauto.
    + intros _. apply register_keeps_present.
      cbn [containers_state set_clock set_containers_state]. rewrite lookup_insert_eq. eauto.
Qed.

Lemma run_tasks_keeps_present t0 xs s k :
  is_Some (containers_state s !! k) ->
  is_Some (containers_state (snd (fst (run_tasks t0 upd xs s))) !! k).
Proof.
  revert s. induction xs as [|x xs IH]; intros s Hs; simpl; [exact Hs|].
  destruct (upd x (set_clock t0 s)) as [r s1] eqn:E1.
  destruct (run_tasks t0 upd xs s1) as [[rs s2] te] eqn:E2. simpl.
  pose proof (IH s1) as IH1. rewrite E2 in IH1. apply IH1.
  pose proof (update_keeps_present x (set_clock t0 s) k Hs) as H. rewrite E1 in H. exact H.
Qed.

Lemma run_tasks_ok_present t0 xs s bs :
  collect_results (fst (fst (run_tasks t0 upd xs s))) = Ok bs ->
  forall c, c ∈ xs -> is_Some (containers_state (snd (fst (run_tasks t0 upd xs s))) !! Id c).
Proof.
  revert s bs. induction xs as [|x xs IH]; intros s bs; simpl.
  { intros _ c Hc. apply elem_of_nil in Hc. contradiction. }
  destruct (upd x (set_clock t0 s)) as [r s1] eqn:E1.
  pose proof (IH s1) as IH1. pose proof (run_tasks_keeps_present t0 xs s1) as Hk.
  destruct (run_tasks t0 upd xs s1) as [[rs s2] te] eqn:E2. simpl in *.
  destruct r as [b|ex]; [|discriminate].
  destruct (collect_results rs) as [bs'|ex] eqn:Ers; [|discriminate]. intros _ c Hc.
  apply elem_of_cons in Hc as [->|Hc]; [|exact (IH1 bs' eq_refl c Hc)].
  apply Hk. pose proof (update_ok_present x (set_clock t0 s) b) as H.
  rewrite E1 in H. apply H. reflexivity.
Qed.

(** Lines 183-186: the eviction, then the fan-out from its result. *)
Lemma pass_state containers s :
  let s1 := set_containers_state
              (remove_old_containers (clock s) (containers_state s) containers) s in
  snd (pass containers s) =
    set_clock (snd (run_tasks (clock s) upd containers s1))
      (snd (fst (run_tasks (clock s) upd containers s1))) /\
  fst (pass containers s) =
    match collect_results (fst (fst (run_tasks (clock s) upd containers s1))) with
    | Ok _ => Ok tt | Raise e => Raise e end.
Proof.
  rewrite update_containers_state_unfold. simpl.
  destruct (run_tasks _ _ _ _) as [[rs s2] te]. split; reflexivity.
Qed.

End PassFacts.

Lemma nodup_map_Id_inj (xs : list container) x c :
  NoDup (map Id xs) -> x ∈ xs -> c ∈ xs -> Id x = Id c -> x = c.
Proof.
  induction xs as [|y xs IH]; intros Hnd Hx Hc Hid; [apply elem_of_nil in Hx; contradiction|].
  simpl in Hnd. apply NoDup_cons in Hnd as [Hy Hnd].
  apply elem_of_cons in Hx as [->|Hx]; apply elem_of_cons in Hc as [->|Hc]; auto.
  - destruct Hy. rewrite Hid. apply elem_of_map_Id, Hc.
  - destruct Hy. rewrite <- Hid. apply elem_of_map_Id, Hx.
Qed.

Lemma update_fresh_keyless w cfg c s e o :
  containers_state s !! Id c = Some e -> ikey e = None ->
  (clock s - 60 < registered e)%Q ->
  discovery_of (run_command w c (sdk_cmd cfg) (clock s)) = Ok o ->
  containers_state (snd (_update_container_state w cfg c s)) !! Id c = Some (set_ikey o e) /\
  exec_log (snd (_update_container_state w cfg c s)) = Id c :: exec_log s.
Proof.
  intros He Hk Hr Hd.
  enough (H : _update_container_state w cfg c s =
    (Ok o, set_containers_state (<[Id c := set_ikey o e]> (containers_state s))
             (add_exec (Id c) s))) by (rewrite H; simpl; rewrite lookup_insert_eq; auto).
  unfold _update_container_state, bind at 1, get_state, gets. simpl.
  rewrite He, Hk. unfold bind at 1, time_time, gets. simpl.
  destruct (Qlt_le_dec _ _) as [_|Hle]; [|lra].
  unfold bind at 1. rewrite sdk_ikey_step, Hd. reflexivity.
Qed.

Lemma pass_ok_present w cfg containers s :
  fst (_update_containers_state w cfg containers s) = Ok tt ->
  forall c, c ∈ containers ->
  is_Some (containers_state (snd (_update_containers_state w cfg containers s)) !! Id c).
Proof.
  destruct (pass_state w cfg containers s) as [-> ->]. cbn [containers_state set_clock].
  destruct (collect_results _) as [bs|ex] eqn:E; [|discriminate]. intros _.
  exact (run_tasks_ok_present w cfg _ _ _ bs E).
Qed.

Lemma pass_keeps_rest w cfg containers s :
  let s' := snd (_update_containers_state w cfg containers s) in
  (exists l, exec_log s' = l ++ exec_log s /\ forall x, x ∈ l -> x ∈ map Id containers) /\
  sent s' = sent s /\ my_container_id s' = my_container_id s.
Proof.
  cbv zeta. destruct (pass_state w cfg containers s) as [-> _].
  pose proof (run_tasks_keeps _ Id (framed_update w cfg) (clock s) containers
    (set_containers_state (remove_old_containers (clock s) (containers_state s) containers) s))
    as (_ & (l & El & Fl) & Hs & Hm).
  cbn [exec_log sent my_container_id set_clock] in *.
  split; [exists l; split; [exact El|exact Fl]|]. split; [exact Hs|exact Hm].
Qed.

Section PassTheorems.
Context (w : DockerWrapper) (cfg : Config).

(** [_update_containers_state] keeps the cache consistent: if every entry
    is stored under its container's [Id] before a refresh pass, the same
    holds afterwards. *)
Theorem pass_entries_match_ids (containers : list container) (s : St) :
  (forall k e, containers_state s !! k = Some e -> Id (e_container e) = k) ->
  forall k e, containers_state (snd (_update_containers_state w cfg containers s)) !! k = Some e ->
              Id (e_container e) = k.
Proof.
  intros Hs. destruct (pass_state w cfg containers s) as [-> _]. cbn [containers_state set_clock].
  apply run_tasks_entries_match. intros k e. cbn [containers_state set_containers_state].
  rewrite remove_old_containers_lookup.
  destruct (containers_state s !! k) as [e0|] eqn:E; simpl; [|discriminate].
  pose proof (Hs k e0 E) as H0.
  case_decide; [intros [= <-]; exact H0|].
  destruct (unregistered e0); [destruct (Qlt_le_dec _ _); [discriminate|]|];
    intros [= <-]; exact H0.
Qed.

(** A refresh pass creates entries only for listed containers: every id
    cached afterwards was cached before or is the [Id] of a listed one. *)
Theorem pass_no_unlisted_entries (containers : list container) (s : St) (k : string) :
  is_Some (containers_state (snd (_update_containers_state w cfg containers s)) !! k) ->
  is_Some (containers_state s !! k) \/ k ∈ map Id containers.
Proof.
  intros H. destruct (decide (k ∈ map Id containers)) as [Hin|Hout]; [right; exact Hin|left].
  rewrite (pass_unlisted w cfg containers s k Hout), remove_old_containers_lookup in H.
  destruct (containers_state s !! k); [eauto|]. simpl in H. exact H.
Qed.

(** A refresh pass that returns normally leaves an entry for every listed
    container. *)
Theorem pass_lists_present (containers : list container) (s : St) :
  fst (_update_containers_state w cfg containers s) = Ok tt ->
  forall c, c ∈ containers ->
  is_Some (containers_state (snd (_update_containers_state w cfg containers s)) !! Id c).
Proof. apply pass_ok_present. Qed.

(** A refresh pass execs only into listed containers, sends no event and
    does not change the collector's own container id. *)
Theorem pass_effects (containers : list container) (s : St) :
  let s' := snd (_update_containers_state w cfg containers s) in
  (exists l, exec_log s' = l ++ exec_log s /\ forall x, x ∈ l -> x ∈ map Id containers) /\
  sent s' = sent s /\ my_container_id s' = my_container_id s.
Proof. apply pass_keeps_rest. Qed.

(** With distinct listed ids, a listed keyless entry registered less than
    60 s before the pass starts gets exactly one discovery exec in the
    pass; its key becomes the result, and its registration time, mark and
    container stay, so the 60 s window counts from the first
    registration. *)
Theorem pass_retry_in_window (containers : list container) (s : St) (c : container)
    (e : entry) (o : option string) :
  NoDup (map Id containers) -> c ∈ containers ->
  containers_state s !! Id c = Some e -> ikey e = None ->
  (clock s - 60 < registered e)%Q ->
  discovery_of (run_command w c (sdk_cmd cfg) (clock s)) = Ok o ->
  let s' := snd (_update_containers_state w cfg containers s) in
  containers_state s' !! Id c = Some (set_ikey o e) /\
  exists l, exec_log s' = l ++ exec_log s /\ count_occ string_dec l (Id c) = 1.
Proof.
  intros Hnd Hc He Hk Hr Hd s'. subst s'.
  destruct (pass_from_evicted w cfg containers s) as [Ecs Elog]. rewrite Ecs, Elog.
  destruct (run_tasks_nodup_split w cfg (Id c) (clock s) containers
    (set_containers_state (remove_old_containers (clock s) (containers_state s) containers) s)
    Hnd (elem_of_map_Id c _ Hc))
    as (x & s0 & Hxin & Hx & Hc0 & Hl0 & (l0 & El0 & Nl0) & Hfin & (l1 & El1 & Nl1)).
  pose proof (nodup_map_Id_inj containers x c Hnd Hxin Hc Hx) as ->.
  cbn [containers_state exec_log set_containers_state] in Hl0, El0.
  rewrite remove_old_containers_lookup, He in Hl0. simpl in Hl0.
  rewrite decide_True in Hl0 by exact (elem_of_map_Id c _ Hc).
  rewrite <- Hc0 in Hr, Hd.
  destruct (update_fresh_keyless w cfg c s0 e o Hl0 Hk Hr Hd) as [Hce Hlog].
  split; [rewrite Hfin; exact Hce|].
  exists (l1 ++ [Id c] ++ l0). rewrite El1, Hlog, El0, <- !app_assoc. split; [reflexivity|].
  rewrite !count_occ_app, (count_occ_absent _ l1 Nl1), (count_occ_absent _ l0 Nl0).
  simpl. destruct (string_dec (Id c) (Id c)); [reflexivity|contradiction].
Qed.

End PassTheorems.

(** ** Looking up a container's key for an event *)

Lemma from_state_uncached w cfg id s :
  containers_state s !! id = None ->
  _get_container_sdk_ikey_from_containers_state w cfg id s =
  let '(r, s1) := _update_containers_state w cfg (get_containers w (clock s)) s in
  match r with
  | Ok _ => (Ok (match containers_state s1 !! id with Some e => ikey e | None => None end), s1)
  | Raise ex => (Raise ex, s1)
  end.
Proof.
  intros E. unfold _get_container_sdk_ikey_from_containers_state, bind, get_state, gets,
    time_time. simpl. rewrite E.
  destruct (_update_containers_state w cfg _ s) as [[[]|ex] s1]; [|reflexivity].
  destruct (containers_state s1 !! id); reflexivity.
Qed.

Lemma from_state_cached w cfg id s e :
  containers_state s !! id = Some e ->
  _get_container_sdk_ikey_from_containers_state w cfg id s = (Ok (ikey e), s).
Proof.
  intros E. unfold _get_container_sdk_ikey_from_containers_state, bind, get_state, gets, ret.
  simpl. rewrite E. simpl. rewrite E. reflexivity.
Qed.

Section KeyLookup.
Context (w : DockerWrapper) (cfg : Config).

(** On an id that is not cached it runs one refresh pass with the current
    listing: if the id is not listed, the result is absent (or the pass's
    exception) and the id stays uncached; if it is listed and the pass
    returns normally, the result is the key of the entry the pass left. *)
Theorem uncached_key_refresh (id : string) (s : St) :
  containers_state s !! id = None ->
  let r := _get_container_sdk_ikey_from_containers_state w cfg id s in
  let s1 := snd (_update_containers_state w cfg (get_containers w (clock s)) s) in
  snd r = s1 /\
  (id ∉ map Id (get_containers w (clock s)) ->
   containers_state s1 !! id = None /\ (fst r = Ok None \/ exists ex, fst r = Raise ex)) /\
  (id ∈ map Id (get_containers w (clock s)) ->
   fst (_update_containers_state w cfg (get_containers w (clock s)) s) = Ok tt ->
   exists e, containers_state s1 !! id = Some e /\ fst r = Ok (ikey e)).
Proof.
  intros E r s1. subst r s1. rewrite (from_state_uncached w cfg id s E).
  pose proof (pass_unlisted w cfg (get_containers w (clock s)) s id) as Hun.
  pose proof (pass_ok_present w cfg (get_containers w (clock s)) s) as Hpr.
  destruct (_update_containers_state w cfg _ s) as [r1 s1]. simpl in *.
  split; [destruct r1; reflexivity|split].
  - intros Hout. rewrite (Hun Hout), remove_old_containers_lookup, E. simpl.
    split; [reflexivity|]. destruct r1; [left; reflexivity|right; eauto].
  - intros Hin -> . apply list_elem_of_In, in_map_iff in Hin as (c & <- & Hc).
    destruct (Hpr eq_refl c (proj2 (list_elem_of_In _ _) Hc)) as [e He].
    exists e. rewrite He. split; reflexivity.
Qed.

End KeyLookup.

(** ** The event loop *)

Lemma for_app {A} (xs ys : list A) (f : A -> M unit) s :
  for_ (xs ++ ys) f s = bind (for_ xs f) (fun _ => for_ ys f) s.
Proof.
  revert s. induction xs as [|x xs IH]; intros s; simpl; unfold bind; [reflexivity|].
  destruct (f x s) as [[[]|ex] s1]; [apply IH|reflexivity].
Qed.

(** One allowed event whose inspection gives a container id: the key
    lookup, then one [send_event]. *)
Lemma process_event_allowed w cv cfg host ev s cid :
  status ev ∈ allowed_statuses ->
  get_container_properties_from_inspect cv (get_inspection w ev) host
    !! "Docker container id" = Some cid ->
  process_event w cv cfg host ev s =
  let insp := get_inspection w ev in
  let p := <["docker-RestartCount" := PNum (inject_Z (RestartCount insp))]>
           (<["docker-StartedAt" := PStr (StartedAt insp)]>
           (<["docker-Created" := PStr (Created insp)]>
           (<["docker-status" := PStr (status ev)]>
              (get_container_properties_from_inspect cv insp host)))) in
  let p := if bool_decide (status ev ∈ ["stop"; "die"]) then duration_props w insp p else p in
  match ikey_for_property w cfg cid s with
  | (Ok ik, s1) =>
      (Ok tt, add_sent (ContainerEvent ("docker-container-" ++ status ev)%string
                          (match ik with Some k => k | None => "" end) p) s1)
  | (Raise ex, s1) => (Raise ex, s1)
  end.
Proof.
  intros Ha Hcid. unfold process_event. cbv zeta.
  rewrite bool_decide_eq_true_2 by exact Ha. cbn [negb]. rewrite Hcid.
  unfold bind. destruct (ikey_for_property w cfg cid s) as [[ik|ex] s1]; reflexivity.
Qed.

Section Events.
Context (w : DockerWrapper) (cv : Convertors) (cfg : Config).

(** [collect_container_events] has no exception handling: once an
    allowed event's inspection gives no container id, the loop raises
    [KeyError('Docker container id')] and the events after it are never
    processed; what was sent before stays sent. *)
Theorem event_loop_stops_on_missing_id (host : string) (pre post : list event) (ev : event)
    (s : St) :
  fst (event_loop w cv cfg host pre s) = Ok tt ->
  status ev ∈ allowed_statuses ->
  get_container_properties_from_inspect cv (get_inspection w ev) host
    !! "Docker container id" = None ->
  event_loop w cv cfg host (pre ++ ev :: post) s =
    (Raise (KeyError "Docker container id"), snd (event_loop w cv cfg host pre s)).
Proof.
  intros Hpre Ha Hn. unfold event_loop in *. rewrite for_app. unfold bind at 1.
  destruct (for_ pre _ s) as [[[]|ex] s1]; [|discriminate]. simpl.
  unfold bind, process_event. cbv zeta.
  rewrite bool_decide_eq_true_2 by exact Ha. cbn [negb]. rewrite Hn. reflexivity.
Qed.

(** When the exec fails only with [DockerWrapperError] and every allowed
    event's inspection gives a container id, the loop returns normally and
    sends exactly one event per allowed event, in order, named
    [docker-container-<status>] and carrying [docker-status]. *)
Theorem event_loop_one_per_allowed (host : string) (evs : list event) (s : St) :
  (forall c cmd t e, run_command w c cmd t = Raise e -> e = DockerWrapperError) ->
  (forall ev, ev ∈ evs -> status ev ∈ allowed_statuses ->
     is_Some (get_container_properties_from_inspect cv (get_inspection w ev) host
                !! "Docker container id")) ->
  exists s' l,
    event_loop w cv cfg host evs s = (Ok tt, s') /\ sent s' = sent s ++ l /\
    Forall2 (fun ev x => exists k p,
               x = ContainerEvent ("docker-container-" ++ status ev)%string k p /\
               p !! "docker-status" = Some (PStr (status ev)))
      (List.filter (fun ev => bool_decide (status ev ∈ allowed_statuses)) evs) l.
Proof.
  intros Hexec Hid. unfold event_loop. revert s.
  induction evs as [|ev evs IH]; intros s.
  { exists s, []. simpl. rewrite app_nil_r. split; [reflexivity|split; [reflexivity|constructor]]. }
  assert (IH' : forall s, exists s' l,
    for_ evs (process_event w cv cfg host) s = (Ok tt, s') /\ sent s' = sent s ++ l /\
    Forall2 (fun ev x => exists k p,
               x = ContainerEvent ("docker-container-" ++ status ev)%string k p /\
               p !! "docker-status" = Some (PStr (status ev)))
      (List.filter (fun ev => bool_decide (status ev ∈ allowed_statuses)) evs) l).
  { apply IH. intros ev' Hev'. apply Hid. by right. }
  simpl. unfold bind at 1.
  destruct (decide (status ev ∈ allowed_statuses)) as [Ha|Ha].
  - destruct (Hid ev (list_elem_of_here _ _) Ha) as [cid Hcid].
    rewrite (process_event_allowed w cv cfg host ev s cid Ha Hcid).
    destruct (ikey_for_property_ok w cfg cid s Hexec) as (r & s1 & E1 & Hs1). rewrite E1.
    destruct (IH' (add_sent (ContainerEvent ("docker-container-" ++ status ev)%string
      (match r with Some k => k | None => "" end)
      (let insp := get_inspection w ev in
       let p := <["docker-RestartCount" := PNum (inject_Z (RestartCount insp))]>
                (<["docker-StartedAt" := PStr (StartedAt insp)]>
                (<["docker-Created" := PStr (Created insp)]>
                (<["docker-status" := PStr (status ev)]>
                   (get_container_properties_from_inspect cv insp host)))) in
       if bool_decide (status ev ∈ ["stop"; "die"]) then duration_props w insp p else p)) s1))
      as (s' & l & E & Hs & Hl).
    exists s', (ContainerEvent ("docker-container-" ++ status ev)%string
      (match r with Some k => k | None => "" end)
      (let insp := get_inspection w ev in
       let p := <["docker-RestartCount" := PNum (inject_Z (RestartCount insp))]>
                (<["docker-StartedAt" := PStr (StartedAt insp)]>
                (<["docker-Created" := PStr (Created insp)]>
                (<["docker-status" := PStr (status ev)]>
                   (get_container_properties_from_inspect cv insp host)))) in
       if bool_decide (status ev ∈ ["stop"; "die"]) then duration_props w insp p else p) :: l).
    split; [exact E|]. split.
    + rewrite Hs. simpl. rewrite Hs1, <- app_assoc. reflexivity.
    + rewrite bool_decide_eq_true_2 by exact Ha. constructor; [|exact Hl].
      eexists _, _. split; [reflexivity|]. cbv zeta.
      destruct (bool_decide (status ev ∈ ["stop"; "die"])).
      * unfold duration_props. cbv zeta. unfold props. rewrite !lookup_insert. decide_strings.
        reflexivity.
      * unfold props. rewrite !lookup_insert. decide_strings. reflexivity.
  - rewrite (process_event_skip w cv cfg host ev s Ha).
    rewrite bool_decide_eq_false_2 by exact Ha. apply IH'.
Qed.

(** Every event the loop sends for an allowed event (exec failing only
    with [DockerWrapperError], a container id in the inspection) carries
    [docker-status], [docker-Created], [docker-StartedAt] and
    [docker-RestartCount] from the inspection; a stop or die event also
    [docker-FinishedAt], [docker-ExitCode] and [docker-Error], the empty
    string when the inspection has no error; for the other statuses every
    other key is the one the convertor gave. *)
Theorem process_event_properties (host : string) (ev : event) (s : St) :
  status ev ∈ allowed_statuses ->
  (forall c cmd t e, run_command w c cmd t = Raise e -> e = DockerWrapperError) ->
  is_Some (get_container_properties_from_inspect cv (get_inspection w ev) host
             !! "Docker container id") ->
  let insp := get_inspection w ev in
  let props0 := get_container_properties_from_inspect cv insp host in
  exists s' key p,
    process_event w cv cfg host ev s = (Ok tt, s') /\
    sent s' = sent s ++ [ContainerEvent ("docker-container-" ++ status ev)%string key p] /\
    p !! "docker-status" = Some (PStr (status ev)) /\
    p !! "docker-Created" = Some (PStr (Created insp)) /\
    p !! "docker-StartedAt" = Some (PStr (StartedAt insp)) /\
    p !! "docker-RestartCount" = Some (PNum (inject_Z (RestartCount insp))) /\
    (status ev ∈ ["stop"; "die"] ->
     p !! "docker-FinishedAt" = Some (PStr (FinishedAt insp)) /\
     p !! "docker-ExitCode" = Some (PNum (inject_Z (ExitCode insp))) /\
     p !! "docker-Error" = Some (PStr (match Error insp with Some e => e | None => "" end))) /\
    (status ev ∉ ["stop"; "die"] ->
     forall k, k ∉ ["docker-status"; "docker-Created"; "docker-StartedAt"; "docker-RestartCount"] ->
     p !! k = props0 !! k).
Proof.
  intros Ha Hexec [cid Hcid] insp props0.
  rewrite (process_event_allowed w cv cfg host ev s cid Ha Hcid).
  destruct (ikey_for_property_ok w cfg cid s Hexec) as (r & s1 & E1 & Hs1). rewrite E1.
  cbv zeta. eexists _, _, _. split; [reflexivity|]. split; [simpl; rewrite Hs1; reflexivity|].
  destruct (decide (status ev ∈ ["stop"; "die"])) as [Hsd|Hsd].
  - rewrite bool_decide_eq_true_2 by exact Hsd.
    unfold duration_props. cbv zeta. unfold props. rewrite !lookup_insert.
    split; [decide_strings; reflexivity|]. split; [decide_strings; reflexivity|].
    split; [decide_strings; reflexivity|]. split; [decide_strings; reflexivity|].
    split; [intros _; split; [|split]; decide_strings; reflexivity|].
    intros H. contradiction.
  - rewrite bool_decide_eq_false_2 by exact Hsd. unfold props.
    split; [rewrite !lookup_insert; decide_strings; reflexivity|].
    split; [rewrite !lookup_insert; decide_strings; reflexivity|].
    split; [rewrite !lookup_insert; decide_strings; reflexivity|].
    split; [rewrite !lookup_insert; decide_strings; reflexivity|].
    split; [intros H; contradiction|].
    intros _ k Hk. subst props0 insp.
    rewrite !lookup_insert_ne by (intros <-; apply Hk; set_solver). reflexivity.
Qed.

(** An allowed event of a cached container is sent with the cached key
    ([''] when it is absent), without a refresh pass or an exec, the
    cache unchanged. *)
Theorem process_event_cached_key (host : string) (ev : event) (s : St) (cid : string)
    (e : entry) :
  status ev ∈ allowed_statuses ->
  get_container_properties_from_inspect cv (get_inspection w ev) host
    !! "Docker container id" = Some (PStr cid) ->
  containers_state s !! cid = Some e ->
  exists p,
    process_event w cv cfg host ev s =
    (Ok tt, add_sent (ContainerEvent ("docker-container-" ++ status ev)%string
                        (match ikey e with Some k => k | None => "" end) p) s).
Proof.
  intros Ha Hcid He. rewrite (process_event_allowed w cv cfg host ev s (PStr cid) Ha Hcid).
  unfold ikey_for_property. rewrite (from_state_cached w cfg cid s e He).
  eexists. reflexivity.
Qed.

End Events.

(** ** The stats cycle *)

Lemma send_metrics_shape cv host (css : list (container * list string)) s :
  exists X, send_metrics cv host css s = (Ok tt, add_sents X s) /\
    forall x, x ∈ X -> exists m c st,
      x = MetricEvent m (get_container_properties cv c host) /\ (c, st) ∈ css.
Proof.
  unfold send_metrics. revert s.
  induction css as [|[c st] rest IH]; intros s; simpl.
  { exists []. rewrite add_sents_nil. split; [reflexivity|]. intros x Hx.
    apply elem_of_nil in Hx. contradiction. }
  destruct (Nat.ltb 1 (length st)).
  - simpl. unfold bind.
    rewrite (for_sends _ (fun metric => [MetricEvent metric (get_container_properties cv c host)])
               _ s (fun _ _ => eq_refl)).
    destruct (IH (add_sents (flat_map (fun metric =>
      [MetricEvent metric (get_container_properties cv c host)]) (convert_to_metrics cv st)) s))
      as (X & EX & HX).
    rewrite EX, add_sents_app. eexists. split; [reflexivity|].
    intros x Hx. apply elem_of_app in Hx as [Hx|Hx].
    + apply list_elem_of_In, in_flat_map in Hx as (m & _ & Hm). simpl in Hm.
      destruct Hm as [<-|[]]. exists m, c, st. split; [reflexivity|apply list_elem_of_here].
    + destruct (HX x Hx) as (m & c' & st' & -> & Hin).
      exists m, c', st'. split; [reflexivity|]. by apply list_elem_of_further.
  - destruct (IH s) as (X & EX & HX). exists X. split; [exact EX|].
    intros x Hx. destruct (HX x Hx) as (m & c' & st' & -> & Hin).
    exists m, c', st'. split; [reflexivity|]. by apply list_elem_of_further.
Qed.

Lemma collect_stats_results w cfg xs bs :
  collect_results
    (map (fun c => match get_stats w c (samples_in_each_metric cfg) with
                   | Ok st => Ok (c, st) | Raise e => Raise e end) xs) = Ok bs ->
  forall c st, (c, st) ∈ bs -> c ∈ xs.
Proof.
  revert bs. induction xs as [|x xs IH]; intros bs; simpl.
  { intros [= <-] c st Hin. apply elem_of_nil in Hin. contradiction. }
  destruct (get_stats w x _) as [st0|e]; [|discriminate].
  destruct (collect_results _) as [bs'|e] eqn:E; [|discriminate].
  intros [= <-] c st Hin. apply elem_of_cons in Hin as [[= -> ->]|Hin].
  - apply list_elem_of_here.
  - apply list_elem_of_further. exact (IH bs' eq_refl c st Hin).
Qed.

Lemma containers_without_sdk_elem my st c :
  c ∈ containers_without_sdk my st ->
  exists k e, st !! k = Some e /\ e_container e = c /\ (my = Some k \/ ikey e = None).
Proof.
  unfold containers_without_sdk. intros Hin.
  apply list_elem_of_In, in_map_iff in Hin as [[k e] [<- Hin]].
  apply filter_In in Hin as [Hin Hp]. apply list_elem_of_In, elem_of_map_to_list in Hin.
  apply bool_decide_eq_true_1 in Hp. exists k, e. auto.
Qed.

Section Stats.
Context (w : DockerWrapper) (cv : Convertors) (cfg : Config).

(** [collect_stats_and_send] asks the injector for the collector's own
    container id only while it is unknown, and keeps it afterwards, also
    when the cycle raises. *)
Theorem collect_stats_own_id (s : St) :
  my_container_id (snd (collect_stats_and_send w cv cfg s)) =
  match my_container_id s with
  | Some x => Some x
  | None => my_container_id_source cfg
  end.
Proof.
  rewrite collect_stats_unfold. cbv zeta.
  set (s0 := match my_container_id s with
             | None => set_my_container_id (my_container_id_source cfg) s
             | Some _ => s end).
  assert (H0 : my_container_id s0 =
    match my_container_id s with Some x => Some x | None => my_container_id_source cfg end).
  { subst s0. destruct (my_container_id s) eqn:E; [exact E|reflexivity]. }
  rewrite <- H0.
  destruct (pass_keeps_rest w cfg (get_containers w (clock s0)) s0) as (_ & _ & Hm).
  destruct (_update_containers_state w cfg _ s0) as [[[]|ex] s1]; simpl in Hm; [|exact Hm].
  pose proof (run_tasks_stats_state w cfg (clock s1)
    (containers_without_sdk (my_container_id s1) (containers_state s1)) s1) as (_ & Hm2 & _).
  destruct (run_tasks _ _ _ _) as [[rs s2] te]. simpl in Hm2.
  destruct (collect_results rs) as [css|ex]; [|simpl; congruence].
  destruct (send_metrics_shape cv (get_host_name w) css (set_clock te s2)) as (X & -> & _).
  simpl. congruence.
Qed.

(** A stats cycle sends metric events only, each with the property map of
    a container that, in the cache the cycle leaves, is keyless or is the
    collector's own: a container that reports with its own key never gets
    metrics from the collector. *)
Theorem collect_stats_targets (s : St) :
  let s' := snd (collect_stats_and_send w cv cfg s) in
  exists l, sent s' = sent s ++ l /\
    forall x, x ∈ l -> exists m c k e,
      x = MetricEvent m (get_container_properties cv c (get_host_name w)) /\
      containers_state s' !! k = Some e /\ e_container e = c /\
      (my_container_id s' = Some k \/ ikey e = None).
Proof.
  cbv zeta. destruct (collect_stats_and_send w cv cfg s) as [r s'] eqn:E. simpl.
  rewrite collect_stats_unfold in E. cbv zeta in E.
  set (s0 := match my_container_id s with
             | None => set_my_container_id (my_container_id_source cfg) s
             | Some _ => s end) in E.
  assert (H0 : sent s0 = sent s) by (subst s0; destruct (my_container_id s); reflexivity).
  destruct (pass_keeps_rest w cfg (get_containers w (clock s0)) s0) as (_ & Hs & _).
  destruct (_update_containers_state w cfg _ s0) as [[[]|ex] s1]; simpl in Hs.
  2:{ injection E as _ <-. exists []. rewrite app_nil_r. split; [congruence|]. intros x Hx.
      apply elem_of_nil in Hx. contradiction. }
  pose proof (run_tasks_stats w cfg (clock s1)
    (containers_without_sdk (my_container_id s1) (containers_state s1)) s1) as Hrs.
  pose proof (run_tasks_stats_state w cfg (clock s1)
    (containers_without_sdk (my_container_id s1) (containers_state s1)) s1) as (Hc2 & Hm2 & Hs2).
  destruct (run_tasks _ _ _ _) as [[rs s2] te]. simpl in Hrs, Hc2, Hm2, Hs2. subst rs.
  destruct (collect_results _) as [css|ex] eqn:Ecr.
  2:{ injection E as _ <-. exists []. simpl. rewrite app_nil_r. split; [congruence|].
      intros x Hx. apply elem_of_nil in Hx. contradiction. }
  destruct (send_metrics_shape cv (get_host_name w) css (set_clock te s2)) as (X & EX & HX).
  rewrite EX in E. injection E as _ <-.
  exists X. simpl. split; [congruence|].
  intros x Hx. destruct (HX x Hx) as (m & c & st & -> & Hin).
  pose proof (collect_stats_results w cfg _ css Ecr c st Hin) as Hc.
  destruct (containers_without_sdk_elem _ _ c Hc) as (k & e & He & Hec & Hk).
  exists m, c, k, e. rewrite Hc2, Hm2. auto.
Qed.

End Stats.

(** ** Examples of the further properties *)

Lemma sdk_ikey_first_segment_witness : sdk_ikey_of (Some "ikey=abc=x") = Some "abc".
Proof.
  destruct (sdk_ikey_first_segment "ikey" "abc" "x") as [_ H];
    [rewrite list_elem_of_In; vm_compute; intuition discriminate
    |rewrite list_elem_of_In; vm_compute; intuition discriminate|].
  exact H.
Defined.

Lemma sdk_ikey_without_eq_witness : sdk_ikey_of (Some "nokey") = None.
Proof.
  apply (sdk_ikey_without_eq "nokey"). rewrite list_elem_of_In. vm_compute. intuition discriminate.
Defined.

Lemma discovery_strips_output_witness :
  discovery_of (Ok ("ikey=abc" ++ String (ascii_of_nat 10) "")%string) = Ok (Some "abc").
Proof.
  transitivity (discovery_of (Ok "ikey=abc")); [|reflexivity].
  apply (discovery_strips_output "" "ikey=abc" (String (ascii_of_nat 10) ""));
    repeat constructor.
Defined.

Lemma pass_entries_match_ids_witness :
  containers_state (snd (_update_containers_state (demo_wrapper "ikey=k") demo_cfg
      [demo_container "a"]
      (demo_state {[ "a" := mkEntry None 0 None (demo_container "a") ]} 10))) !! "a" =
    Some (mkEntry (Some "k") 0 None (demo_container "a")) /\
  Id (e_container (mkEntry (Some "k") 0 None (demo_container "a"))) = "a".
Proof.
  split; [vm_compute; reflexivity|].
  apply (pass_entries_match_ids (demo_wrapper "ikey=k") demo_cfg [demo_container "a"]
    (demo_state {[ "a" := mkEntry None 0 None (demo_container "a") ]} 10)).
  - intros k e H. cbn [containers_state demo_state] in H.
    apply lookup_singleton_Some in H as [<- <-]. reflexivity.
  - vm_compute. reflexivity.
Defined.

Lemma pass_no_unlisted_entries_witness :
  is_Some ((∅ : gmap string entry) !! "a") \/ "a" ∈ map Id [demo_container "a"].
Proof.
  apply (pass_no_unlisted_entries (demo_wrapper "ikey=k") demo_cfg [demo_container "a"]
           (demo_state ∅ 10) "a").
  exists (mkEntry (Some "k") 10 None (demo_container "a")). vm_compute. reflexivity.
Defined.

Lemma pass_lists_present_witness :
  is_Some (containers_state (snd (_update_containers_state (demo_wrapper "") demo_cfg
      [demo_container "a"; demo_container "b"] (demo_state ∅ 10))) !! "b").
Proof.
  refine (pass_lists_present (demo_wrapper "") demo_cfg
           [demo_container "a"; demo_container "b"] (demo_state ∅ 10)
           _ (demo_container "b") _).
  - vm_compute. reflexivity.
  - apply list_elem_of_further, list_elem_of_here.
Defined.

Lemma pass_retry_in_window_witness :
  containers_state (snd (_update_containers_state (demo_wrapper "ikey=k") demo_cfg
      [demo_container "a"]
      (demo_state {[ "a" := mkEntry None 0 None (demo_container "a") ]} 10))) !! "a" =
    Some (set_ikey (Some "k") (mkEntry None 0 None (demo_container "a"))).
Proof.
  destruct (pass_retry_in_window (demo_wrapper "ikey=k") demo_cfg [demo_container "a"]
    (demo_state {[ "a" := mkEntry None 0 None (demo_container "a") ]} 10)
    (demo_container "a") (mkEntry None 0 None (demo_container "a")) (Some "k")) as [H _].
  - apply NoDup_singleton.
  - apply list_elem_of_here.
  - reflexivity.
  - reflexivity.
  - vm_compute. reflexivity.
  - reflexivity.
  - exact H.
Defined.

Lemma uncached_key_refresh_witness :
  let wr := mkWrapper "host" (fun _ => [demo_container "a"]) (fun _ _ _ => Ok "ikey=k")
              (fun _ _ => Ok []) [] (fun _ => demo_inspection) (fun _ => 0%Q) in
  exists e,
    containers_state (snd (_update_containers_state wr demo_cfg [demo_container "a"]
                             (demo_state ∅ 0))) !! "a" = Some e /\
    fst (_get_container_sdk_ikey_from_containers_state wr demo_cfg "a" (demo_state ∅ 0)) =
      Ok (ikey e).
Proof.
  intros wr.
  destruct (uncached_key_refresh wr demo_cfg "a" (demo_state ∅ 0)) as (_ & _ & H);
    [reflexivity|].
  apply H; [apply list_elem_of_here|vm_compute; reflexivity].
Defined.

Lemma event_loop_stops_on_missing_id_witness :
  event_loop (demo_wrapper "ikey=k") demo_no_id_convertors demo_cfg "host"
    [mkEvent "create" "x"; mkEvent "start" "a"; mkEvent "die" "b"] (demo_state ∅ 0) =
  (Raise (KeyError "Docker container id"), demo_state ∅ 0).
Proof.
  apply (event_loop_stops_on_missing_id (demo_wrapper "ikey=k") demo_no_id_convertors demo_cfg
           "host" [mkEvent "create" "x"] [mkEvent "die" "b"] (mkEvent "start" "a")
           (demo_state ∅ 0)).
  - reflexivity.
  - apply list_elem_of_here.
  - reflexivity.
Defined.

Lemma event_loop_one_per_allowed_witness :
  exists s' l,
    event_loop (demo_timed_wrapper "ikey=k" []) demo_convertors demo_cfg "host"
      [mkEvent "create" "x"; mkEvent "start" "a"; mkEvent "die" "a"] (demo_state ∅ 0) =
      (Ok tt, s') /\ sent s' = [] ++ l /\
    Forall2 (fun ev x => exists k p,
               x = ContainerEvent ("docker-container-" ++ status ev)%string k p /\
               p !! "docker-status" = Some (PStr (status ev)))
      [mkEvent "start" "a"; mkEvent "die" "a"] l.
Proof.
  apply (event_loop_one_per_allowed (demo_timed_wrapper "ikey=k" []) demo_convertors demo_cfg
           "host" [mkEvent "create" "x"; mkEvent "start" "a"; mkEvent "die" "a"]
           (demo_state ∅ 0)).
  - intros c cmd t e Hr. discriminate Hr.
  - intros ev _ _. exists (PStr "a"). reflexivity.
Defined.

Lemma process_event_properties_witness :
  exists s' key p,
    process_event (demo_timed_wrapper "ikey=k" []) demo_convertors demo_cfg "host"
      (mkEvent "die" "a") (demo_state ∅ 0) = (Ok tt, s') /\
    sent s' = [ContainerEvent "docker-container-die" key p] /\
    p !! "docker-Error" = Some (PStr "").
Proof.
  destruct (process_event_properties (demo_timed_wrapper "ikey=k" []) demo_convertors demo_cfg
              "host" (mkEvent "die" "a") (demo_state ∅ 0))
    as (s' & key & p & E & Hs & _ & _ & _ & _ & Hsd & _).
  - apply list_elem_of_further, list_elem_of_further, list_elem_of_here.
  - intros c cmd t e Hr. discriminate Hr.
  - exists (PStr "a"). reflexivity.
  - exists s', key, p. split; [exact E|]. split; [exact Hs|].
    apply Hsd. apply list_elem_of_further, list_elem_of_here.
Defined.

Lemma process_event_cached_key_witness :
  exists p,
    process_event (demo_wrapper "ikey=other") demo_convertors demo_cfg "host"
      (mkEvent "start" "a")
      (demo_state {[ "a" := mkEntry (Some "k") 0 None (demo_container "a") ]} 0) =
    (Ok tt, add_sent (ContainerEvent "docker-container-start" "k" p)
              (demo_state {[ "a" := mkEntry (Some "k") 0 None (demo_container "a") ]} 0)).
Proof.
  apply (process_event_cached_key (demo_wrapper "ikey=other") demo_convertors demo_cfg "host"
           (mkEvent "start" "a")
           (demo_state {[ "a" := mkEntry (Some "k") 0 None (demo_container "a") ]} 0) "a"
           (mkEntry (Some "k") 0 None (demo_container "a"))).
  - apply list_elem_of_here.
  - reflexivity.
  - reflexivity.
Defined.
